(** * Claim submission front end: upload queue, submission and verification status

    A shallow embedding of the stateful parts of the React front end:
    - [ImageUpload]   (components/ImageUpload.js): the queue of staged
      files with their categories, and the coverage statistics;
    - [NewClaim]      (pages/NewClaim.js): validation of the staged files
      and the submission of the claim;
    - [CarVerification] (components/CarVerification.js): the cached
      verification status, the per-angle upload and the progress display.

    React state is a record; a state setter is a record update; an
    [async] handler is split at each [await] into the part that runs
    before the request is issued and the part that runs when the reply
    arrives.  The replies of the server are inputs of the model. *)

From Stdlib Require Import ZArith Floats Uint63 Ascii String List Bool Lia.
From stdpp Require Import base gmap strings list fin_maps.
Import ListNotations.

Local Open Scope string_scope.
Local Open Scope list_scope.

(** ** JavaScript values used by the components *)

Module JS.

(** Truthiness of a string: only the empty string is falsy. *)
Definition truthy_string (s : string) : bool :=
  match s with
  | EmptyString => false
  | String _ _ => true
  end.

(** Truthiness of a value that is [undefined]/[null] ([None]) or a string. *)
Definition truthy (v : option string) : bool :=
  match v with
  | None => false
  | Some s => truthy_string s
  end.

(** [v || d] where [v] is [undefined] or a string and [d] a string. *)
Definition or_else (v : option string) (d : string) : string :=
  match v with
  | Some s => if truthy_string s then s else d
  | None => d
  end.

(** [String.prototype.toUpperCase] on one ASCII character. *)
Definition upper_ascii (c : ascii) : ascii :=
  let n := nat_of_ascii c in
  if (97 <=? n)%nat && (n <=? 122)%nat then ascii_of_nat (n - 32) else c.

(** [s.charAt(0).toUpperCase() + s.slice(1)], for ASCII strings. *)
Definition capitalize (s : string) : string :=
  match s with
  | EmptyString => EmptyString
  | String c rest => String (upper_ascii c) rest
  end.

(** [arr.join(sep)]. *)
Fixpoint join (sep : string) (l : list string) : string :=
  match l with
  | [] => ""
  | [x] => x
  | x :: rest => x +:+ sep +:+ join sep rest
  end.

(** [arr.includes(x)] on an array of strings. *)
Definition includes (x : string) (l : list string) : bool :=
  existsb (String.eqb x) l.

(** [[...new Set(arr)]]: the distinct elements in order of first occurrence. *)
Fixpoint set_spread_aux (seen : list string) (l : list string) : list string :=
  match l with
  | [] => []
  | x :: rest =>
      if includes x seen then set_spread_aux seen rest
      else x :: set_spread_aux (x :: seen) rest
  end.

Definition set_spread (l : list string) : list string := set_spread_aux [] l.

(** [arr.find(p)]. *)
Fixpoint find {A} (p : A -> bool) (l : list A) : option A :=
  match l with
  | [] => None
  | x :: rest => if p x then Some x else find p rest
  end.

(** [arr.filter((_, i) => p i)] and [arr.map((x, i) => f x i)]: callbacks
    that receive the index. *)
Fixpoint filteri_from {A} (i : nat) (p : nat -> bool) (l : list A) : list A :=
  match l with
  | [] => []
  | x :: rest =>
      if p i then x :: filteri_from (S i) p rest else filteri_from (S i) p rest
  end.

Definition filteri {A} (p : nat -> bool) (l : list A) : list A := filteri_from 0 p l.

Fixpoint mapi_from {A B} (i : nat) (f : A -> nat -> B) (l : list A) : list B :=
  match l with
  | [] => []
  | x :: rest => f x i :: mapi_from (S i) f rest
  end.

Definition mapi {A B} (f : A -> nat -> B) (l : list A) : list B := mapi_from 0 f l.

(** *** Numbers

    A JavaScript number is an IEEE 754 double: Rocq's primitive [float].
    [Math.round] returns the nearest integer, a tie going towards
    [+Infinity]; [NaN], the infinities and the zeros are returned as they
    are.  The rounding is computed exactly on the mantissa and exponent. *)

Definition float_of_Z (z : Z) : float :=
  if (z <? 0)%Z then PrimFloat.opp (PrimFloat.of_uint63 (Uint63.of_Z (- z)))
  else PrimFloat.of_uint63 (Uint63.of_Z z).

Definition math_round (x : float) : float :=
  match Prim2SF x with
  | S754_finite s m e =>
      if (0 <=? e)%Z then x
      else
        let d := Z.pow 2 (- e) in
        let sm := if s then (- Z.pos m)%Z else Z.pos m in
        let n := Z.div (2 * sm + d) (2 * d) in
        if (n =? 0)%Z then (if s then PrimFloat.opp 0%float else 0%float)
        else float_of_Z n
  | _ => x
  end.

(** The integer a number denotes, when it is an integer. *)
Definition integral_value (x : float) : option Z :=
  match Prim2SF x with
  | S754_zero _ => Some 0%Z
  | S754_finite s m e =>
      if (0 <=? e)%Z then
        let v := (Z.pos m * Z.pow 2 e)%Z in Some (if s then (- v)%Z else v)
      else
        let d := Z.pow 2 (- e) in
        if (Z.pos m mod d =? 0)%Z then
          let v := (Z.pos m / d)%Z in Some (if s then (- v)%Z else v)
        else None
  | _ => None
  end.

Fixpoint digits_of_pos_fuel (fuel : nat) (z : Z) (acc : string) : string :=
  match fuel with
  | O => acc
  | S fuel' =>
      let acc' := String (ascii_of_nat (48 + Z.to_nat (z mod 10))) acc in
      if (z <? 10)%Z then acc' else digits_of_pos_fuel fuel' (z / 10) acc'
  end.

Definition string_of_Z (z : Z) : string :=
  if (z <? 0)%Z then "-" +:+ digits_of_pos_fuel (S (Z.to_nat (Z.log2 (- z)))) (- z) ""
  else digits_of_pos_fuel (S (Z.to_nat (Z.log2 z))) z "".

(** [String(x)] as a template literal computes it, for [NaN], the
    infinities and the integers up to 2^53 in absolute value, whose
    shortest decimal form is their full expansion (other numbers are not
    modelled: [None]). *)
Definition number_to_string (x : float) : option string :=
  match Prim2SF x with
  | S754_nan => Some "NaN"
  | S754_infinity false => Some "Infinity"
  | S754_infinity true => Some "-Infinity"
  | _ =>
      match integral_value x with
      | Some z =>
          if (Z.abs z <=? 2 ^ 53)%Z then Some (string_of_Z z) else None
      | None => None
      end
  end.

(** *** Values of any shape

    What a field of a JSON body can hold: [null], a boolean, a number
    (whole numbers up to 2^53 in absolute value), a string, an array or
    an object (its fields, each key once).  [undefined] is the [None] of
    an [option Value]. *)
#[warnings="-register-all"]
Inductive Value :=
  | Null
  | Bool (b : bool)
  | Num (z : Z)
  | Str (s : string)
  | Arr (items : list Value)
  | Obj (fields : list (string * Value)).

(** Truthiness of a value: [null], [false], [0] and the empty string are
    falsy, every array and object is truthy. *)
Definition truthy_value (v : Value) : bool :=
  match v with
  | Null => false
  | Bool b => b
  | Num z => negb (z =? 0)%Z
  | Str s => truthy_string s
  | Arr _ => true
  | Obj _ => true
  end.

(** Truthiness of a value that may be [undefined]. *)
Definition truthy_opt (v : option Value) : bool :=
  match v with
  | None => false
  | Some x => truthy_value x
  end.

(** [v || d] where [v] may be [undefined]. *)
Definition or_value (v : option Value) (d : Value) : Value :=
  match v with
  | Some x => if truthy_value x then x else d
  | None => d
  end.

(** [typeof v === 'string'] *)
Definition is_string (v : Value) : bool :=
  match v with
  | Str _ => true
  | _ => false
  end.

(** [v.k] for a key [k] that no prototype defines ([msg] and [detail]
    below): a field of an object, [undefined] on anything else. *)
Definition get (v : Value) (k : string) : option Value :=
  match v with
  | Obj fields => option_map snd (find (fun kv => String.eqb (fst kv) k) fields)
  | _ => None
  end.

(** [String(v)], as a template literal converts a value: an array joins
    its items with commas, [null] items giving nothing; an object is
    "[object Object]". *)
Fixpoint to_string (v : Value) : string :=
  match v with
  | Null => "null"
  | Bool b => if b then "true" else "false"
  | Num z => string_of_Z z
  | Str s => s
  | Arr items =>
      (fix items_to_string (l : list Value) : string :=
         match l with
         | [] => ""
         | x :: rest =>
             let sx := match x with Null => "" | _ => to_string x end in
             match rest with
             | [] => sx
             | _ :: _ => sx +:+ "," +:+ items_to_string rest
             end
         end) items
  | Obj _ => "[object Object]"
  end.

End JS.

Coercion JS.Str : string >-> JS.Value.

(** ** The browser: object URLs and random tokens *)

(** A [File] picked or dropped by the user. *)
Module File.
Record t := mk { name : string; size : Z; type : string }.
End File.

Module Browser.

(** The part of the browser the upload widget talks to: the store of object
    URLs ([URL.createObjectURL] registers a blob under a fresh URL, which
    stays registered until [URL.revokeObjectURL] is called on it), and the
    tokens that successive calls of
    [Math.random().toString(36).substr(2, 9)] return. *)
Record t := mk {
  blobs : gmap nat File.t;
  next_url : nat;
  random_token : nat -> string;
  random_calls : nat
}.

Definition init (tokens : nat -> string) : t :=
  mk ∅ 0 tokens 0.

Definition createObjectURL (f : File.t) (b : t) : nat * t :=
  (next_url b,
   mk (<[next_url b := f]> (blobs b)) (S (next_url b)) (random_token b) (random_calls b)).

Definition revokeObjectURL (u : nat) (b : t) : t :=
  mk (delete u (blobs b)) (next_url b) (random_token b) (random_calls b).

Definition random_id (b : t) : string * t :=
  (random_token b (random_calls b),
   mk (blobs b) (next_url b) (random_token b) (S (random_calls b))).

(** An object URL is live while the store still holds its blob. *)
Definition live (u : nat) (b : t) : bool :=
  match blobs b !! u with
  | Some _ => true
  | None => false
  end.

End Browser.

(** ** components/ImageUpload.js *)

Module Category.
Record t := mk { value : string; label : string; icon : string; color : string }.
End Category.

Module FileItem.
(** The object [onDrop] builds for a staged file. *)
Record t := mk {
  file : File.t;
  preview : nat;
  name : string;
  size : Z;
  type : string;
  status : string;
  id : string;
  category : string;
  categoryLabel : option string
}.
End FileItem.

Module ImageUpload.

Definition imageCategories : list Category.t :=
  [ Category.mk "front" "Front View" "bi-arrow-up-circle" "primary";
    Category.mk "rear" "Rear View" "bi-arrow-down-circle" "success";
    Category.mk "back" "Back View" "bi-arrow-left-circle" "warning";
    Category.mk "top" "Top View" "bi-circle" "info" ].

(** [imageCategories.find(cat => cat.value === c)?.label] *)
Definition label_of (c : string) : option string :=
  option_map Category.label
    (JS.find (fun cat => String.eqb (Category.value cat) c) imageCategories).

(** The body of the [acceptedFiles.map] callback of [onDrop]. *)
Definition make_file_object (selectedCategory : string) (f : File.t)
    (b : Browser.t) : FileItem.t * Browser.t :=
  let '(url, b1) := Browser.createObjectURL f b in
  let '(tok, b2) := Browser.random_id b1 in
  (FileItem.mk f url (File.name f) (File.size f) (File.type f) "ready" tok
     selectedCategory (label_of selectedCategory),
   b2).

Fixpoint make_file_objects (selectedCategory : string) (fs : list File.t)
    (b : Browser.t) : list FileItem.t * Browser.t :=
  match fs with
  | [] => ([], b)
  | f :: rest =>
      let '(item, b1) := make_file_object selectedCategory f b in
      let '(items, b2) := make_file_objects selectedCategory rest b1 in
      (item :: items, b2)
  end.

(** [onDrop]: [acceptedFiles] is what react-dropzone hands over for one
    drop; the new objects are appended to the queue. *)
Definition onDrop (selectedCategory : string) (acceptedFiles : list File.t)
    (prev : list FileItem.t) (b : Browser.t) : list FileItem.t * Browser.t :=
  let '(newFiles, b') := make_file_objects selectedCategory acceptedFiles b in
  (prev ++ newFiles, b').

Definition removeFile (index : nat) (prev : list FileItem.t) : list FileItem.t :=
  JS.filteri (fun i => negb (Nat.eqb i index)) prev.

Definition set_category (newCategory : string) (f : FileItem.t) : FileItem.t :=
  FileItem.mk (FileItem.file f) (FileItem.preview f) (FileItem.name f)
    (FileItem.size f) (FileItem.type f) (FileItem.status f) (FileItem.id f)
    newCategory (label_of newCategory).

Definition updateFileCategory (index : nat) (newCategory : string)
    (prev : list FileItem.t) : list FileItem.t :=
  JS.mapi (fun f i => if Nat.eqb i index then set_category newCategory f else f) prev.

(** [files.filter(file => file.category === c).length] *)
Definition count_category (files : list FileItem.t) (c : string) : nat :=
  length (List.filter (fun f => String.eqb (FileItem.category f) c) files).

(** [getCategoryStats]: the object built by the [reduce] over
    [imageCategories], one key per category. *)
Definition getCategoryStats (files : list FileItem.t) : gmap string nat :=
  fold_left
    (fun acc cat => <[Category.value cat := count_category files (Category.value cat)]> acc)
    imageCategories ∅.

(** [stats[k] === 0] *)
Definition stat_is_zero (stats : gmap string nat) (k : string) : bool :=
  match stats !! k with
  | Some O => true
  | _ => false
  end.

Definition getMissingCategories (files : list FileItem.t) : list Category.t :=
  let stats := getCategoryStats files in
  List.filter (fun cat => stat_is_zero stats (Category.value cat)) imageCategories.

(** [getCategoryStats()[k] || 0], as the badges read a count. *)
Definition stat_or_zero (files : list FileItem.t) (k : string) : nat :=
  match getCategoryStats files !! k with
  | Some n => n
  | None => 0
  end.

(** The props the queue handling depends on, and the local state. *)
Record Props := mkProps {
  showPreview : bool;
  requireCategories : bool;
  maxFiles : nat
}.

Record State := mkState {
  files : list FileItem.t;
  selectedCategory : string;
  browser : Browser.t
}.

Definition init (tokens : nat -> string) : State :=
  mkState [] "front" (Browser.init tokens).

(** What the user can do to the queue.  A category reaches a handler as
    the [value] of the radio button or of the [<option>] that fired. *)
Inductive Event :=
  | Drop (acceptedFiles : list File.t)
  | Remove (index : nat)
  | ChangeFileCategory (index : nat) (value : string)
  | SelectCategory (value : string).

Definition handle (ev : Event) (s : State) : State :=
  match ev with
  | Drop fs =>
      let '(fl, b) := onDrop (selectedCategory s) fs (files s) (browser s) in
      mkState fl (selectedCategory s) b
  | Remove i => mkState (removeFile i (files s)) (selectedCategory s) (browser s)
  | ChangeFileCategory i c =>
      mkState (updateFileCategory i c (files s)) (selectedCategory s) (browser s)
  | SelectCategory c => mkState (files s) c (browser s)
  end.

Definition is_category_value (c : string) : bool :=
  existsb (fun cat => String.eqb (Category.value cat) c) imageCategories.

(** The controls that are rendered: the radio buttons and the per-file
    [<Form.Select>] only under [requireCategories], with one radio button
    or [<option>] per entry of [imageCategories]; the per-file controls
    only in the gallery ([showPreview]), one set per queued file. *)
Definition enabled (p : Props) (s : State) (ev : Event) : bool :=
  match ev with
  | Drop _ => true
  | Remove i => showPreview p && (i <? length (files s))%nat
  | ChangeFileCategory i c =>
      showPreview p && requireCategories p && (i <? length (files s))%nat
      && is_category_value c
  | SelectCategory c => requireCategories p && is_category_value c
  end.

Inductive reachable (p : Props) (tokens : nat -> string) : State -> Prop :=
  | reach_init : reachable p tokens (init tokens)
  | reach_step s ev :
      reachable p tokens s -> enabled p s ev = true ->
      reachable p tokens (handle ev s).

End ImageUpload.

(** ** HTTP requests and replies *)

Module Http.

Inductive FormValue :=
  | Text (s : string)
  | Blob (f : File.t).

(** A request as axios receives it; [body] lists the entries appended to
    the [FormData], in order. *)
Record Request := mkRequest {
  method : string;
  url : string;
  body : list (string * FormValue)
}.

(** The error an axios call rejects with: [message] is [error.message],
    [detail] is [error.response?.data?.detail], a value of any shape
    ([None] when the chain is [undefined] at any link: no response, no
    body, no [detail]). *)
Record AxiosError := mkError {
  message : string;
  detail : option JS.Value
}.

(** A notification: [toast.success(content)] or [toast.error(content)]. *)
Inductive Toast :=
  | ToastSuccess (content : JS.Value)
  | ToastError (content : JS.Value).

End Http.

(** ** pages/NewClaim.js *)

Module NewClaim.

Record State := mkState {
  formData : gmap string string;
  upload : ImageUpload.State;
  loading : bool;
  error : JS.Value;
  toasts : list Http.Toast;
  navigation : list string;
  requests : list Http.Request
}.

Definition files (s : State) : list FileItem.t := ImageUpload.files (upload s).

Definition initFormData : gmap string string :=
  <["description" := ""]> (<["location" := ""]> (<["accident_date" := ""]>
    (<["policy_number" := ""]> ∅))).

Definition init (tokens : nat -> string) : State :=
  mkState initFormData (ImageUpload.init tokens) false "" [] [] [].

(** The props [NewClaim] passes to [ImageUpload]. *)
Definition uploadProps : ImageUpload.Props := ImageUpload.mkProps true true 12.

Definition handleChange (name value : string) (s : State) : State :=
  mkState (<[name := value]> (formData s)) (upload s) (loading s) (error s)
    (toasts s) (navigation s) (requests s).

Definition requiredCategories : list string := ["front"; "rear"; "back"; "top"].

Definition uploadedCategories (fl : list FileItem.t) : list string :=
  JS.set_spread (map FileItem.category fl).

Definition missingCategories (fl : list FileItem.t) : list string :=
  List.filter (fun cat => negb (JS.includes cat (uploadedCategories fl)))
    requiredCategories.

(** The template literal of [validateImages]. *)
Definition missing_message (missing : list string) : string :=
  "Missing required vehicle images: " +:+ JS.join ", " (map JS.capitalize missing).

(** [validateImages]: [None] is [null], [Some msg] the error string. *)
Definition validateImages (fl : list FileItem.t) : option string :=
  if Nat.eqb (length fl) 0 then Some "Please upload at least one image"
  else
    let missing := missingCategories fl in
    if (0 <? length missing)%nat then Some (missing_message missing)
    else None.

(** [formData.k] as [FormData.append] stores it. *)
Definition field (fd : gmap string string) (k : string) : Http.FormValue :=
  match fd !! k with
  | Some v => Http.Text v
  | None => Http.Text "undefined"
  end.

(** The [FormData] assembled by [handleSubmit]; [fileItem.file] is an
    object, hence truthy, so [fileItem.file || fileItem] is the file. *)
Definition formDataToSend (fd : gmap string string) (fl : list FileItem.t)
    : list (string * Http.FormValue) :=
  [ ("policy_number", field fd "policy_number");
    ("accident_date", field fd "accident_date");
    ("location", field fd "location");
    ("description", field fd "description") ]
  ++ map (fun fileItem => ("images", Http.Blob (FileItem.file fileItem))) fl.

Definition set_error (msg : JS.Value) (s : State) : State :=
  mkState (formData s) (upload s) (loading s) msg (toasts s) (navigation s)
    (requests s).

(** [handleSubmit] up to the [await]: validation, then either the early
    return or the request. *)
Definition handleSubmit (s : State) : State :=
  let imageError := validateImages (files s) in
  if JS.truthy imageError then
    set_error (JS.or_else imageError "") s
  else
    mkState (formData s) (upload s) true "" (toasts s) (navigation s)
      (requests s ++ [Http.mkRequest "POST" "/claims"
                        (formDataToSend (formData s) (files s))]).

(** The reply to [POST /claims]: the [id] of the created claim (as the
    template literal prints it), or the error. *)
Inductive SubmitReply :=
  | Created (id : string)
  | Failed (e : Http.AxiosError).

(** [handleSubmit] from the [await] on: [try], [catch], [finally]. *)
Definition handleSubmit_reply (r : SubmitReply) (s : State) : State :=
  match r with
  | Created id =>
      mkState (formData s) (upload s) false (error s)
        (toasts s ++ [Http.ToastSuccess "Claim submitted successfully!"])
        (navigation s ++ ["/claim/" +:+ id]) (requests s)
  | Failed e =>
      let message := JS.or_value (Http.detail e) "Failed to submit claim" in
      mkState (formData s) (upload s) false message
        (toasts s ++ [Http.ToastError message]) (navigation s) (requests s)
  end.

(** The child of the [<Alert>]:
    [typeof error === 'string' ? error : error.msg || error.detail || 'An error occurred']. *)
Definition alert_content (err : JS.Value) : JS.Value :=
  if JS.is_string err then err
  else JS.or_value (JS.get err "msg")
         (JS.or_value (JS.get err "detail") "An error occurred").

(** The [<Alert>] above the form: rendered when [error] is truthy. *)
Definition alert (s : State) : option JS.Value :=
  if JS.truthy_value (error s) then Some (alert_content (error s)) else None.

(** An event of [ImageUpload] changes the queue held by [NewClaim]. *)
Definition upload_event (ev : ImageUpload.Event) (s : State) : State :=
  mkState (formData s) (ImageUpload.handle ev (upload s)) (loading s) (error s)
    (toasts s) (navigation s) (requests s).

End NewClaim.

(** ** components/CarVerification.js *)

Module Angle.
Record t := mk { id : string; label : string; description : string }.
End Angle.

Module CarVerification.

Definition ANGLES : list Angle.t :=
  [ Angle.mk "front" "Front View" "Front view of the vehicle showing the license plate";
    Angle.mk "back" "Rear View" "Rear view showing the back of the vehicle";
    Angle.mk "left" "Left Side" "Left side view of the vehicle";
    Angle.mk "right" "Right Side" "Right side view of the vehicle" ].

(** One entry of [angles] in the status the server returns; a field that
    is absent from the JSON is [false] (for the flags, which are only
    tested for truthiness) or [None]. *)
Record AngleData := mkAngleData {
  uploaded : bool;
  verified : bool;
  score : option float;
  uploaded_at : option string
}.

(** The body of [GET /api/car-verification/status/{claimId}]. *)
Record Status := mkStatus {
  verified_angles : float;
  total_angles : float;
  threshold : option float;
  angles : gmap string AngleData;
  status : string
}.

Record State := mkState {
  verificationStatus : option Status;
  isLoading : bool;
  isUploading : bool;
  activeAngle : option string;
  toasts : list Http.Toast;
  requests : list Http.Request
}.

Definition init : State := mkState None true false None [] [].

Section Component.

(** The [claimId] prop. *)
Variable claimId : string.

(** [fetchVerificationStatus] up to the [await]. *)
Definition fetchVerificationStatus (s : State) : State :=
  mkState (verificationStatus s) true (isUploading s) (activeAngle s) (toasts s)
    (requests s ++ [Http.mkRequest "GET"
                      ("/api/car-verification/status/" +:+ claimId) []]).

Inductive StatusReply :=
  | StatusOk (data : Status)
  | StatusFailed (e : Http.AxiosError).

(** [fetchVerificationStatus] from the [await] on. *)
Definition fetchVerificationStatus_reply (r : StatusReply) (s : State) : State :=
  match r with
  | StatusOk data =>
      mkState (Some data) false (isUploading s) (activeAngle s) (toasts s)
        (requests s)
  | StatusFailed _ =>
      mkState (verificationStatus s) false (isUploading s) (activeAngle s)
        (toasts s ++ [Http.ToastError "Failed to load verification status"])
        (requests s)
  end.

(** [handleFileUpload] up to the [await]; [file] is [None] when falsy. *)
Definition handleFileUpload (angle : string) (file : option File.t) (s : State)
    : State :=
  match file with
  | None => s
  | Some f =>
      mkState (verificationStatus s) (isLoading s) true (activeAngle s) (toasts s)
        (requests s ++ [Http.mkRequest "POST"
                          ("/api/car-verification/upload/" +:+ claimId
                           +:+ "?angle=" +:+ angle)
                          [("file", Http.Blob f)]])
  end.

Inductive UploadReply :=
  | UploadOk
  | UploadFailed (e : Http.AxiosError).

Definition finally_upload (s : State) : State :=
  mkState (verificationStatus s) (isLoading s) false None (toasts s) (requests s).

(** [handleFileUpload] from the [await] on: on success the toast and the
    call of [fetchVerificationStatus] (not awaited: it runs up to its own
    [await]), on failure the toast; then the [finally] block. *)
Definition handleFileUpload_reply (angle : string) (r : UploadReply) (s : State)
    : State :=
  match r with
  | UploadOk =>
      let s1 :=
        mkState (verificationStatus s) (isLoading s) (isUploading s) (activeAngle s)
          (toasts s ++ [Http.ToastSuccess (angle +:+ " image uploaded successfully")])
          (requests s) in
      finally_upload (fetchVerificationStatus s1)
  | UploadFailed e =>
      let s1 :=
        mkState (verificationStatus s) (isLoading s) (isUploading s) (activeAngle s)
          (toasts s ++ [Http.ToastError
             ("Failed to upload " +:+ angle +:+ " image: "
              +:+ JS.to_string (JS.or_value (Http.detail e) (Http.message e)))])
          (requests s) in
      finally_upload s1
  end.

(** The [onChange] of the hidden file input of angle [id]; [file] is
    [e.target.files[0]] when there is one. *)
Definition onChange (id : string) (file : option File.t) (s : State) : State :=
  match file with
  | Some f =>
      handleFileUpload id (Some f)
        (mkState (verificationStatus s) (isLoading s) (isUploading s) (Some id)
           (toasts s) (requests s))
  | None => s
  end.

(** What can happen to the component. *)
Inductive Event :=
  | Mount
  | FileChosen (id : string) (file : option File.t)
  | UploadReplied (angle : string) (r : UploadReply)
  | StatusReplied (r : StatusReply).

Definition handle (ev : Event) (s : State) : State :=
  match ev with
  | Mount => fetchVerificationStatus s
  | FileChosen id file => onChange id file s
  | UploadReplied angle r => handleFileUpload_reply angle r s
  | StatusReplied r => fetchVerificationStatus_reply r s
  end.

Definition run (evs : list Event) (s : State) : State :=
  fold_left (fun st ev => handle ev st) evs s.

End Component.

(** [getStatusVariant]; the literals are the doubles JavaScript reads
    [0.7] and [0.4] as. *)
Definition getStatusVariant (score : float) : string :=
  if PrimFloat.leb 0x1.6666666666666p-1 score then "success"
  else if PrimFloat.leb 0x1.999999999999ap-2 score then "warning"
  else "danger".

(** [overallProgress], computed at each render. *)
Definition overallProgress (vs : option Status) : float :=
  match vs with
  | Some v =>
      JS.math_round
        (PrimFloat.mul (PrimFloat.div (verified_angles v) (total_angles v)) 100%float)
  | None => 0%float
  end.

(** The header of the card: the progress badge and, when present, the
    completion badge. *)
Record Header := mkHeader {
  progressBadgeBg : string;
  progressBadgeText : option string;
  completionBadge : bool
}.

Definition is_complete (vs : option Status) : bool :=
  match vs with
  | Some v => String.eqb (status v) "complete"
  | None => false
  end.

Definition header (s : State) : Header :=
  let p := overallProgress (verificationStatus s) in
  mkHeader
    (if PrimFloat.eqb p 100%float then "success" else "warning")
    (option_map (fun n => n +:+ "% Complete") (JS.number_to_string p))
    (is_complete (verificationStatus s)).

(** The render: the spinner while loading, the card otherwise. *)
Inductive View :=
  | Spinner
  | Card (h : Header).

Definition render (s : State) : View :=
  if isLoading s then Spinner else Card (header s).

End CarVerification.

(** ** The page as a whole: what the user and the server can do to NewClaim *)

Module NewClaimPage.

Inductive Event :=
  | Change (name value : string)
  | Upload (ev : ImageUpload.Event)
  | Submit
  | Replied (r : NewClaim.SubmitReply).

Definition handle (ev : Event) (s : NewClaim.State) : NewClaim.State :=
  match ev with
  | Change name value => NewClaim.handleChange name value s
  | Upload e => NewClaim.upload_event e s
  | Submit => NewClaim.handleSubmit s
  | Replied r => NewClaim.handleSubmit_reply r s
  end.

(** The names of the four form controls wired to [handleChange]. *)
Definition fieldNames : list string :=
  ["policy_number"; "accident_date"; "location"; "description"].

(** [Change] comes from one of the four controls; the events of the
    widget are those of its rendered controls; the submit button is
    [disabled={loading}]; a reply needs a request in flight. *)
Definition enabled (s : NewClaim.State) (ev : Event) : bool :=
  match ev with
  | Change name _ => JS.includes name fieldNames
  | Upload e => ImageUpload.enabled NewClaim.uploadProps (NewClaim.upload s) e
  | Submit => negb (NewClaim.loading s)
  | Replied _ => NewClaim.loading s
  end.

Inductive reachable (tokens : nat -> string) : NewClaim.State -> Prop :=
  | reach_init : reachable tokens (NewClaim.init tokens)
  | reach_step s ev :
      reachable tokens s -> enabled s ev = true -> reachable tokens (handle ev s).


Definition run (evs : list Event) (s : NewClaim.State) : NewClaim.State :=
  fold_left (fun st ev => handle ev st) evs s.


(** The files of the [images] entries of a request body. *)
Fixpoint images (body : list (string * Http.FormValue)) : list File.t :=
  match body with
  | [] => []
  | (k, Http.Blob f) :: rest =>
      if String.eqb k "images" then f :: images rest else images rest
  | (_, Http.Text _) :: rest => images rest
  end.

End NewClaimPage.

(** ** Downloads: components/ImageUpload.js [downloadImage] and
    components/ReportGenerator.js [generateReport] *)

Module Download.

(** What a download touches: the browser's object URLs, the files saved
    by clicking a temporary [<a download>] link (the name of the
    [download] attribute and the blob its [href] resolved to), the
    notifications and the requests.  A [Blob] is a [File.t] whose name
    plays no role. *)
Record World := mkWorld {
  browser : Browser.t;
  saved : list (string * File.t);
  toasts : list Http.Toast;
  requests : list Http.Request
}.

(** [link.click()] on a link whose [href] is the object URL [u]. *)
Definition click (u : nat) (download : string) (w : World) : World :=
  match Browser.blobs (browser w) !! u with
  | Some blob => mkWorld (browser w) (saved w ++ [(download, blob)]) (toasts w) (requests w)
  | None => w
  end.

(** The sequence shared by the download handlers: create the object URL,
    click a link on it, revoke it. *)
Definition save_blob (blob : File.t) (download : string) (w : World) : World :=
  let '(u, b1) := Browser.createObjectURL blob (browser w) in
  let w1 := click u download (mkWorld b1 (saved w) (toasts w) (requests w)) in
  mkWorld (Browser.revokeObjectURL u (browser w1)) (saved w1) (toasts w1) (requests w1).

Definition toast (t : Http.Toast) (w : World) : World :=
  mkWorld (browser w) (saved w) (toasts w ++ [t]) (requests w).

Definition request (r : Http.Request) (w : World) : World :=
  mkWorld (browser w) (saved w) (toasts w) (requests w ++ [r]).

Inductive BlobReply :=
  | BlobOk (data : File.t)
  | BlobFailed (e : Http.AxiosError).

(** [downloadImage] up to the [await]. *)
Definition downloadImage (imagePath : string) (w : World) : World :=
  request (Http.mkRequest "GET" ("/static/" +:+ imagePath) []) w.

(** [downloadImage] from the [await] on; [filename] is [None] when
    [undefined]. *)
Definition downloadImage_reply (filename : option string) (r : BlobReply)
    (w : World) : World :=
  match r with
  | BlobOk data => save_blob data (JS.or_else filename "image.jpg") w
  | BlobFailed _ => toast (Http.ToastError "Failed to download image") w
  end.

(** Every object URL the browser holds was handed out before. *)
Definition fresh_next (b : Browser.t) : Prop :=
  forall u, Browser.live u b = true -> (u < Browser.next_url b)%nat.

End Download.

Module ReportGenerator.

(** The state of the component; [hidden] counts the calls of [onHide]. *)
Record State := mkState {
  generating : bool;
  reportFormat : string;
  includeImages : bool;
  includeAnalysis : bool;
  hidden : nat;
  world : Download.World
}.

(** The request of [generateReport]: the URL and the [params] object. *)
Record ReportRequest := mkReportRequest {
  url : string;
  format : string;
  include_images : bool;
  include_analysis : bool
}.

(** [generateReport] up to the [await]; [claim] is the [id] of the claim
    (as the template literal prints it), [None] when the prop is falsy.
    The second component is the request issued, if any. *)
Definition generateReport (claim : option string) (s : State)
    : State * option ReportRequest :=
  match claim with
  | None => (s, None)
  | Some id =>
      (mkState true (reportFormat s) (includeImages s) (includeAnalysis s)
         (hidden s) (world s),
       Some (mkReportRequest ("/claims/" +:+ id +:+ "/report") (reportFormat s)
               (includeImages s) (includeAnalysis s)))
  end.

(** [generateReport] from the [await] on. *)
Definition generateReport_reply (id : string) (r : Download.BlobReply) (s : State)
    : State :=
  match r with
  | Download.BlobOk data =>
      let w1 :=
        Download.save_blob data
          ("claim_report_" +:+ id +:+ "." +:+ reportFormat s) (world s) in
      let w2 := Download.toast (Http.ToastSuccess "Report downloaded successfully") w1 in
      mkState false (reportFormat s) (includeImages s) (includeAnalysis s)
        (S (hidden s)) w2
  | Download.BlobFailed _ =>
      mkState false (reportFormat s) (includeImages s) (includeAnalysis s)
        (hidden s) (Download.toast (Http.ToastError "Failed to generate report") (world s))
  end.

End ReportGenerator.

(** ** The card of CarVerification: progress bar and angle cards *)

Module CarVerificationView.

(** [x || 0] for a number that may be absent: [undefined], [NaN] and the
    zeros are falsy. *)
Definition or_zero (x : option float) : float :=
  match x with
  | Some v =>
      match Prim2SF v with
      | S754_nan | S754_zero _ => 0%float
      | _ => v
      end
  | None => 0%float
  end.

Record ProgressBar := mkProgressBar {
  now : float;
  variant : string;
  barLabel : option string
}.

Definition progressBar (s : CarVerification.State) : ProgressBar :=
  let p := CarVerification.overallProgress (CarVerification.verificationStatus s) in
  mkProgressBar p
    (CarVerification.getStatusVariant (PrimFloat.div p 100%float))
    (option_map (fun n => n +:+ "%") (JS.number_to_string p)).

(** [verificationStatus?.angles?.[id] || {}] *)
Definition angleData (s : CarVerification.State) (id : string)
    : CarVerification.AngleData :=
  match CarVerification.verificationStatus s with
  | Some v =>
      match CarVerification.angles v !! id with
      | Some d => d
      | None => CarVerification.mkAngleData false false None None
      end
  | None => CarVerification.mkAngleData false false None None
  end.

Record AngleCard := mkAngleCard {
  border : string;
  badgeBg : string;
  badgeText : string;
  scorePercent : option float;
  buttonText : string;
  buttonDisabled : bool
}.

Definition angleCard (s : CarVerification.State) (a : Angle.t) : AngleCard :=
  let d := angleData s (Angle.id a) in
  let isVerified := CarVerification.verified d in
  let score := or_zero (CarVerification.score d) in
  mkAngleCard
    (if isVerified then "border-success" else "border-light")
    (if CarVerification.uploaded d
     then (if isVerified then "success" else "warning") else "secondary")
    (if CarVerification.uploaded d
     then (if isVerified then "Verified" else "Pending Review") else "Not Uploaded")
    (if CarVerification.uploaded d
     then Some (JS.math_round (PrimFloat.mul score 100%float)) else None)
    (if CarVerification.uploaded d then "Update Image"
     else "Upload " +:+ Angle.label a)
    (CarVerification.isUploading s).

Definition cards (s : CarVerification.State) : list AngleCard :=
  map (angleCard s) CarVerification.ANGLES.

(** The record the component holds after a series of events: that of
    the last status request that succeeded. *)
Fixpoint last_status (evs : list CarVerification.Event)
    (cur : option CarVerification.Status) : option CarVerification.Status :=
  match evs with
  | [] => cur
  | CarVerification.StatusReplied (CarVerification.StatusOk data) :: rest =>
      last_status rest (Some data)
  | _ :: rest => last_status rest cur
  end.

End CarVerificationView.

(** ** Integer counts: the progress computed on whole numbers *)

Module Counts.

(** The progress for [v] verified angles out of [t], both whole numbers. *)
Definition progress (v t : nat) : float :=
  JS.math_round
    (PrimFloat.mul
       (PrimFloat.div (JS.float_of_Z (Z.of_nat v)) (JS.float_of_Z (Z.of_nat t)))
       100%float).

(** [100 * v / t] rounded to the nearest integer, a tie going up, in
    exact arithmetic. *)
Definition exact_percent (v t : nat) : Z :=
  ((200 * Z.of_nat v + Z.of_nat t) / (2 * Z.of_nat t))%Z.

(** The facts checked for one pair of counts. *)
Definition check (v t : nat) : bool :=
  match JS.integral_value (progress v t) with
  | Some p =>
      (0 <=? p)%Z && (p <=? 100)%Z
      && Bool.eqb (p =? 100)%Z (Nat.eqb v t)
      && Bool.eqb (PrimFloat.eqb (progress v t) 100%float) (Nat.eqb v t)
      && (Z.abs (p - exact_percent v t) <=? 1)%Z
      && (if (t <=? 39)%nat then (p =? exact_percent v t)%Z else true)
  | None => false
  end.

Definition check_all (n : nat) : bool :=
  forallb (fun t => forallb (fun v => check v t) (seq 0 (S t))) (seq 1 n).

(** The variant of the progress bar for a whole percentage. *)
Definition bar_variant (p : nat) : string :=
  CarVerification.getStatusVariant
    (PrimFloat.div (JS.float_of_Z (Z.of_nat p)) 100%float).

Definition expected_variant (p : nat) : string :=
  if (70 <=? p)%nat then "success" else if (40 <=? p)%nat then "warning" else "danger".

End Counts.

(** ** Sample data: three image files and a token generator *)

Module Sample.

Definition tokens (n : nat) : string := "tok" +:+ JS.string_of_Z (Z.of_nat n).

Definition f1 : File.t := File.mk "front-1.jpg" 204800 "image/jpeg".
Definition f2 : File.t := File.mk "front-2.jpg" 198311 "image/jpeg".
Definition f3 : File.t := File.mk "rear-1.png" 350112 "image/png".
Definition f4 : File.t := File.mk "back-1.png" 350112 "image/png".
Definition f5 : File.t := File.mk "top-1.webp" 99120 "image/webp".

(** The queue [f1@front, f2@front, f3@rear], built through the widget. *)
Definition three_staged : ImageUpload.State :=
  ImageUpload.handle (ImageUpload.Drop [f3])
    (ImageUpload.handle (ImageUpload.SelectCategory "rear")
       (ImageUpload.handle (ImageUpload.Drop [f1; f2])
          (ImageUpload.init tokens))).

(** A queue covering the four categories. *)
Definition all_staged : ImageUpload.State :=
  ImageUpload.handle (ImageUpload.Drop [f5])
    (ImageUpload.handle (ImageUpload.SelectCategory "top")
       (ImageUpload.handle (ImageUpload.Drop [f4])
          (ImageUpload.handle (ImageUpload.SelectCategory "back") three_staged))).

Definition claim_with (u : ImageUpload.State) : NewClaim.State :=
  NewClaim.mkState NewClaim.initFormData u false "" [] [] [].

Definition bad_request : Http.AxiosError :=
  Http.mkError "Request failed with status code 400"
    (Some (JS.Str "Policy number not found")).

(** A 422 reply whose [detail] is a list of field errors. *)
Definition validation_error : Http.AxiosError :=
  Http.mkError "Request failed with status code 422"
    (Some (JS.Arr
       [JS.Obj [("loc", JS.Arr [JS.Str "body"; JS.Str "accident_date"]);
                ("msg", JS.Str "invalid date format");
                ("type", JS.Str "value_error.date")]])).

(** The form filled in, over a queue that covers the four categories. *)
Definition filled : NewClaim.State :=
  NewClaim.handleChange "description" "Hit from behind at a red light"
    (NewClaim.handleChange "location" "Pune"
       (NewClaim.handleChange "accident_date" "2025-03-14"
          (NewClaim.handleChange "policy_number" "POL-2291"
             (claim_with all_staged)))).

(** The queue [a@front, b@front, c@rear] for any three files. *)
Definition staged (tokens : nat -> string) (a b c : File.t) : ImageUpload.State :=
  ImageUpload.handle (ImageUpload.Drop [c])
    (ImageUpload.handle (ImageUpload.SelectCategory "rear")
       (ImageUpload.handle (ImageUpload.Drop [a; b])
          (ImageUpload.init tokens))).

(** Twelve image files, as many as [maxFiles] allows in one drop. *)
Definition twelve : list File.t := repeat f1 12.

(** A status with [verified] of four angles verified. *)
Definition status_of (verified : float) (st : string) : CarVerification.Status :=
  CarVerification.mkStatus verified 4%float (Some 0.75%float)
    (<["front" := CarVerification.mkAngleData true false (Some 0.5%float) None]> ∅)
    st.

(** A network failure: no response, hence no [detail]. *)
Definition network_error : Http.AxiosError := Http.mkError "Network Error" None.

Definition loaded (v : CarVerification.Status) : CarVerification.State :=
  CarVerification.mkState (Some v) false false None [] [].

End Sample.

(** * Properties *)

(** ** Arrays and sets of strings *)

Lemma includes_In (x : string) (l : list string) :
  JS.includes x l = true <-> In x l.
Proof.
  unfold JS.includes. rewrite existsb_exists. split.
  - intros [y [Hy Heq]]. apply String.eqb_eq in Heq. now subst.
  - intros H. exists x. split; [assumption | apply String.eqb_refl].
Qed.

Lemma set_spread_aux_In (x : string) (l seen : list string) :
  In x (JS.set_spread_aux seen l) <-> In x l /\ ~ In x seen.
Proof.
  revert seen. induction l as [|y l IH]; intros seen; simpl.
  - tauto.
  - destruct (JS.includes y seen) eqn:E.
    + apply includes_In in E. rewrite IH. split.
      * intros [H1 H2]. tauto.
      * intros [[->|H1] H2]; [contradiction | tauto].
    + assert (~ In y seen) as Hy.
      { intros H. apply includes_In in H. congruence. }
      simpl. rewrite IH. simpl. split.
      * intros [->|[H1 H2]]; [tauto |]. split; [tauto | intros H; apply H2; tauto].
      * intros [[->|H1] H2]; [tauto |].
        destruct (String.eqb_spec y x) as [->|Hne]; [tauto |].
        right. split; [assumption |]. intros [H|H]; [congruence | tauto].
Qed.

Lemma set_spread_In (x : string) (l : list string) :
  In x (JS.set_spread l) <-> In x l.
Proof. unfold JS.set_spread. rewrite set_spread_aux_In. simpl. tauto. Qed.

Lemma uploaded_category_iff (c : string) (fl : list FileItem.t) :
  In c (NewClaim.uploadedCategories fl) <->
  exists f, In f fl /\ FileItem.category f = c.
Proof.
  unfold NewClaim.uploadedCategories. rewrite set_spread_In, in_map_iff.
  split; intros [f [H1 H2]]; exists f; tauto.
Qed.

(** A required category is reported missing exactly when no staged file
    carries it. *)
Lemma missingCategories_iff (c : string) (fl : list FileItem.t) :
  In c (NewClaim.missingCategories fl) <->
  In c NewClaim.requiredCategories /\
  forall f, In f fl -> FileItem.category f <> c.
Proof.
  unfold NewClaim.missingCategories. rewrite filter_In, negb_true_iff.
  split; intros [Hreq H]; (split; [assumption|]).
  - intros f Hf Hc.
    assert (JS.includes c (NewClaim.uploadedCategories fl) = true) as Hin.
    { apply includes_In, uploaded_category_iff. eauto. }
    congruence.
  - destruct (JS.includes c (NewClaim.uploadedCategories fl)) eqn:E; [|reflexivity].
    apply includes_In, uploaded_category_iff in E. destruct E as [f [Hf Hc]].
    exfalso. eapply H; eauto.
Qed.

Lemma missingCategories_nil_iff (fl : list FileItem.t) :
  NewClaim.missingCategories fl = [] <->
  forall c, In c NewClaim.requiredCategories ->
            exists f, In f fl /\ FileItem.category f = c.
Proof.
  split.
  - intros Hnil c Hc.
    destruct (JS.includes c (NewClaim.uploadedCategories fl)) eqn:E.
    + now apply includes_In, uploaded_category_iff in E.
    + exfalso.
      assert (In c (NewClaim.missingCategories fl)) as Hin.
      { unfold NewClaim.missingCategories. apply filter_In.
        split; [assumption | now rewrite E]. }
      rewrite Hnil in Hin. exact Hin.
  - intros Hall. destruct (NewClaim.missingCategories fl) as [|c l] eqn:E; [reflexivity|].
    exfalso.
    assert (In c (NewClaim.missingCategories fl)) as Hin by (rewrite E; now left).
    apply missingCategories_iff in Hin. destruct Hin as [Hreq Hno].
    destruct (Hall c Hreq) as [f [Hf Hc]]. eapply Hno; eauto.
Qed.

Lemma validateImages_empty : NewClaim.validateImages [] = Some "Please upload at least one image".
Proof. reflexivity. Qed.

Lemma validateImages_missing (fl : list FileItem.t) :
  fl <> [] -> NewClaim.missingCategories fl <> [] ->
  NewClaim.validateImages fl = Some (NewClaim.missing_message (NewClaim.missingCategories fl)).
Proof.
  intros Hne Hmiss. unfold NewClaim.validateImages.
  destruct fl as [|f fl]; [congruence|]. cbn [length Nat.eqb].
  destruct (NewClaim.missingCategories (f :: fl)) as [|c l]; [congruence|].
  reflexivity.
Qed.

Lemma validateImages_covered (fl : list FileItem.t) :
  fl <> [] -> NewClaim.missingCategories fl = [] ->
  NewClaim.validateImages fl = None.
Proof.
  intros Hne Hmiss. unfold NewClaim.validateImages.
  destruct fl as [|f fl]; [congruence|]. cbn [length Nat.eqb].
  now rewrite Hmiss.
Qed.

Lemma missing_message_truthy (missing : list string) :
  JS.truthy_string (NewClaim.missing_message missing) = true.
Proof. reflexivity. Qed.

(** ** Coverage statistics *)

Lemma getCategoryStats_lookup (fl : list FileItem.t) (c : string) :
  ImageUpload.getCategoryStats fl !! c =
  if ImageUpload.is_category_value c then Some (ImageUpload.count_category fl c)
  else None.
Proof.
  unfold ImageUpload.getCategoryStats, ImageUpload.is_category_value,
    ImageUpload.imageCategories.
  cbn [fold_left existsb Category.value].
  destruct (String.eqb_spec "top" c) as [<-|Htop].
  { now rewrite lookup_insert_eq. }
  rewrite lookup_insert_ne by assumption.
  destruct (String.eqb_spec "back" c) as [<-|Hback].
  { now rewrite lookup_insert_eq. }
  rewrite lookup_insert_ne by assumption.
  destruct (String.eqb_spec "rear" c) as [<-|Hrear].
  { now rewrite lookup_insert_eq. }
  rewrite lookup_insert_ne by assumption.
  destruct (String.eqb_spec "front" c) as [<-|Hfront].
  { now rewrite lookup_insert_eq. }
  rewrite lookup_insert_ne by assumption.
  reflexivity.
Qed.

Lemma count_category_pos (fl : list FileItem.t) (c : string) :
  (exists f, In f fl /\ FileItem.category f = c) ->
  (0 < ImageUpload.count_category fl c)%nat.
Proof.
  intros [f [Hf Hc]]. unfold ImageUpload.count_category.
  assert (In f (List.filter (fun g => String.eqb (FileItem.category g) c) fl)) as Hin.
  { apply filter_In. split; [assumption | now apply String.eqb_eq]. }
  destruct (List.filter _ fl); [destruct Hin | simpl; lia].
Qed.

Lemma count_category_zero (fl : list FileItem.t) (c : string) :
  ImageUpload.count_category fl c = 0%nat <->
  forall f, In f fl -> FileItem.category f <> c.
Proof.
  unfold ImageUpload.count_category. split.
  - intros H f Hf Hc.
    assert (In f (List.filter (fun g => String.eqb (FileItem.category g) c) fl)) as Hin.
    { apply filter_In. split; [assumption | now apply String.eqb_eq]. }
    destruct (List.filter _ fl); [destruct Hin | discriminate].
  - intros H. destruct (List.filter _ fl) as [|g l] eqn:E; [reflexivity|].
    exfalso. assert (In g (g :: l)) as Hin by now left.
    rewrite <- E in Hin. apply filter_In in Hin. destruct Hin as [Hg Hc].
    apply String.eqb_eq in Hc. eapply H; eauto.
Qed.

(** [getMissingCategories] lists a category exactly when no staged file
    carries it. *)
Lemma getMissingCategories_iff (fl : list FileItem.t) (cat : Category.t) :
  In cat (ImageUpload.getMissingCategories fl) <->
  In cat ImageUpload.imageCategories /\
  forall f, In f fl -> FileItem.category f <> Category.value cat.
Proof.
  unfold ImageUpload.getMissingCategories. rewrite filter_In.
  split; intros [Hcat H]; (split; [assumption|]).
  - unfold ImageUpload.stat_is_zero in H. rewrite getCategoryStats_lookup in H.
    destruct (ImageUpload.is_category_value (Category.value cat)); [|discriminate].
    destruct (ImageUpload.count_category fl (Category.value cat)) eqn:E; [|discriminate].
    now apply count_category_zero.
  - unfold ImageUpload.stat_is_zero. rewrite getCategoryStats_lookup.
    assert (ImageUpload.is_category_value (Category.value cat) = true) as ->.
    { unfold ImageUpload.is_category_value. apply existsb_exists.
      exists cat. split; [assumption | apply String.eqb_refl]. }
    apply count_category_zero in H. now rewrite H.
Qed.

(** ** Validation and submission (NewClaim) *)

Lemma category_value_required (cat : Category.t) :
  In cat ImageUpload.imageCategories ->
  In (Category.value cat) NewClaim.requiredCategories.
Proof.
  unfold ImageUpload.imageCategories, NewClaim.requiredCategories. simpl.
  intros [<-|[<-|[<-|[<-|[]]]]]; simpl; tauto.
Qed.

Lemma handleSubmit_invalid (s : NewClaim.State) (msg : string) :
  NewClaim.validateImages (NewClaim.files s) = Some msg ->
  JS.truthy_string msg = true ->
  NewClaim.handleSubmit s = NewClaim.set_error msg s.
Proof.
  intros Hv Ht. unfold NewClaim.handleSubmit. rewrite Hv. simpl.
  now rewrite Ht.
Qed.

(** C1 (as the code has it): when a required category has no staged file,
    [handleSubmit] issues no request and leaves the queue alone; the
    error it sets names the missing categories, capitalised and in the
    order front, rear, back, top, when the queue is not empty, and is
    "Please upload at least one image" when the queue is empty.  A
    category is listed exactly when it is required and no staged file
    carries it. *)
Theorem C1_missing_category_blocks_submission (s : NewClaim.State) :
  NewClaim.missingCategories (NewClaim.files s) <> [] ->
  NewClaim.requests (NewClaim.handleSubmit s) = NewClaim.requests s /\
  NewClaim.files (NewClaim.handleSubmit s) = NewClaim.files s /\
  (NewClaim.files s = [] ->
   NewClaim.error (NewClaim.handleSubmit s) = "Please upload at least one image") /\
  (NewClaim.files s <> [] ->
   NewClaim.error (NewClaim.handleSubmit s) =
   NewClaim.missing_message (NewClaim.missingCategories (NewClaim.files s))) /\
  (forall c, In c (NewClaim.missingCategories (NewClaim.files s)) <->
             In c NewClaim.requiredCategories /\
             forall f, In f (NewClaim.files s) -> FileItem.category f <> c).
Proof.
  intros Hmiss.
  assert (exists msg, NewClaim.handleSubmit s = NewClaim.set_error msg s /\
            (NewClaim.files s = [] -> msg = "Please upload at least one image") /\
            (NewClaim.files s <> [] ->
             msg = NewClaim.missing_message
                     (NewClaim.missingCategories (NewClaim.files s)))) as [msg [Hs [He Hn]]].
  { destruct (NewClaim.files s) as [|f fl] eqn:E.
    - exists "Please upload at least one image". split; [|split; congruence].
      apply handleSubmit_invalid; [now rewrite E | reflexivity].
    - exists (NewClaim.missing_message (NewClaim.missingCategories (f :: fl))).
      split; [|split; congruence].
      apply handleSubmit_invalid; [|apply missing_message_truthy].
      rewrite E. apply validateImages_missing; [discriminate | assumption]. }
  rewrite Hs. split; [reflexivity|]. split; [reflexivity|].
  split; [exact He|]. split; [exact Hn|].
  intros c. apply missingCategories_iff.
Qed.

(** C1 witness: the queue [f1@front, f2@front, f3@rear] misses back and top. *)
Lemma C1_witness :
  NewClaim.requests (NewClaim.handleSubmit (Sample.claim_with Sample.three_staged)) = [] /\
  NewClaim.error (NewClaim.handleSubmit (Sample.claim_with Sample.three_staged)) =
  "Missing required vehicle images: Back, Top".
Proof.
  destruct (C1_missing_category_blocks_submission
              (Sample.claim_with Sample.three_staged)) as [H1 [_ [_ [H2 _]]]].
  - vm_compute. discriminate.
  - split; [exact H1|]. rewrite H2; [reflexivity | vm_compute; discriminate].
Defined.

(** C1 as stated fails on the empty queue: all four categories are
    missing, and the error does not name them. *)
Lemma C1_counterexample_empty_queue :
  ~ (forall s : NewClaim.State,
       NewClaim.missingCategories (NewClaim.files s) <> [] ->
       NewClaim.error (NewClaim.handleSubmit s) =
       NewClaim.missing_message (NewClaim.missingCategories (NewClaim.files s))).
Proof.
  intros H.
  specialize (H (NewClaim.init Sample.tokens)).
  assert (NewClaim.missingCategories (NewClaim.files (NewClaim.init Sample.tokens)) <> [])
    as Hm by (vm_compute; discriminate).
  specialize (H Hm). vm_compute in H. discriminate.
Qed.

(** C2: when every required category has a staged file,
    [getMissingCategories] is empty, [validateImages] passes, and
    [handleSubmit] issues [POST /claims] whose body is the four form
    fields with the values held in [formData], followed by every staged
    file. *)
Theorem C2_covered_queue_is_submitted (s : NewClaim.State)
    (policy_number accident_date location description : string) :
  (forall c, In c NewClaim.requiredCategories ->
             exists f, In f (NewClaim.files s) /\ FileItem.category f = c) ->
  NewClaim.formData s !! "policy_number" = Some policy_number ->
  NewClaim.formData s !! "accident_date" = Some accident_date ->
  NewClaim.formData s !! "location" = Some location ->
  NewClaim.formData s !! "description" = Some description ->
  ImageUpload.getMissingCategories (NewClaim.files s) = [] /\
  NewClaim.missingCategories (NewClaim.files s) = [] /\
  NewClaim.validateImages (NewClaim.files s) = None /\
  NewClaim.handleSubmit s =
  NewClaim.mkState (NewClaim.formData s) (NewClaim.upload s) true ""
    (NewClaim.toasts s) (NewClaim.navigation s)
    (NewClaim.requests s ++
     [Http.mkRequest "POST" "/claims"
        ([ ("policy_number", Http.Text policy_number);
           ("accident_date", Http.Text accident_date);
           ("location", Http.Text location);
           ("description", Http.Text description) ]
         ++ map (fun fileItem => ("images", Http.Blob (FileItem.file fileItem)))
              (NewClaim.files s))]).
Proof.
  intros Hall Hpn Had Hloc Hdesc.
  assert (NewClaim.missingCategories (NewClaim.files s) = []) as Hmiss
    by now apply missingCategories_nil_iff.
  assert (NewClaim.files s <> []) as Hne.
  { destruct (Hall "front") as [f [Hf _]]; [simpl; tauto|].
    intros E. rewrite E in Hf. exact Hf. }
  assert (NewClaim.validateImages (NewClaim.files s) = None) as Hval
    by now apply validateImages_covered.
  repeat split; try assumption.
  - destruct (ImageUpload.getMissingCategories (NewClaim.files s)) as [|cat l] eqn:E;
      [reflexivity|].
    exfalso.
    assert (In cat (ImageUpload.getMissingCategories (NewClaim.files s))) as Hin
      by (rewrite E; now left).
    apply getMissingCategories_iff in Hin. destruct Hin as [Hcat Hno].
    destruct (Hall _ (category_value_required _ Hcat)) as [f [Hf Hc]].
    eapply Hno; eauto.
  - unfold NewClaim.handleSubmit. rewrite Hval.
    unfold NewClaim.formDataToSend, NewClaim.field.
    rewrite Hpn, Had, Hloc, Hdesc. reflexivity.
Qed.

Lemma filled_covered :
  forall c, In c NewClaim.requiredCategories ->
    exists f, In f (NewClaim.files Sample.filled) /\ FileItem.category f = c.
Proof.
  intros c Hc. simpl in Hc.
  destruct Hc as [<-|[<-|[<-|[<-|[]]]]]; vm_compute; eauto 10.
Qed.

(** C2 witness: the form filled in over a queue with one file per
    category and a second front; the request carries the typed values
    and the five files. *)
Lemma C2_witness :
  NewClaim.requests (NewClaim.handleSubmit Sample.filled)
  = [Http.mkRequest "POST" "/claims"
       [ ("policy_number", Http.Text "POL-2291");
         ("accident_date", Http.Text "2025-03-14");
         ("location", Http.Text "Pune");
         ("description", Http.Text "Hit from behind at a red light");
         ("images", Http.Blob Sample.f1);
         ("images", Http.Blob Sample.f2);
         ("images", Http.Blob Sample.f3);
         ("images", Http.Blob Sample.f4);
         ("images", Http.Blob Sample.f5) ]].
Proof.
  destruct (C2_covered_queue_is_submitted Sample.filled
              "POL-2291" "2025-03-14" "Pune" "Hit from behind at a red light"
              filled_covered eq_refl eq_refl eq_refl eq_refl)
    as [_ [_ [_ H]]].
  rewrite H. reflexivity.
Defined.

Lemma truthy_nonempty (d : string) : d <> "" -> JS.truthy_string d = true.
Proof. destruct d; [congruence | reflexivity]. Qed.

Lemma or_value_string (e : Http.AxiosError) (d : string) (fallback : JS.Value) :
  Http.detail e = Some (JS.Str d) -> d <> "" ->
  JS.or_value (Http.detail e) fallback = JS.Str d.
Proof.
  intros Hd Hne. unfold JS.or_value. rewrite Hd. cbn [JS.truthy_value].
  now rewrite (truthy_nonempty d Hne).
Qed.

(** C3 (as the code has it): a failed submission leaves the staged files
    and the request log as they are, so submit can be pressed again; it
    shows the [detail] of the payload, or "Failed to submit claim" when
    there is none: a [detail] that is a non-empty string appears
    unchanged in the alert and in the notification, and one that is not
    a string appears in the alert as its [msg] or [detail] field, or as
    "An error occurred".  A failed per-angle upload leaves the cached
    status and the request log as they are and notifies "Failed to
    upload <angle> image: " followed by the [detail] as text (unchanged
    when it is a non-empty string); the component holds no staged file,
    and no event other than choosing a file sends an upload again. *)
Theorem C3_failure_keeps_queue_and_shows_detail
    (s : NewClaim.State) (claimId angle : string) (cs : CarVerification.State)
    (e : Http.AxiosError) :
  let s' := NewClaim.handleSubmit_reply (NewClaim.Failed e) s in
  let cs' := CarVerification.handleFileUpload_reply claimId angle
               (CarVerification.UploadFailed e) cs in
  (NewClaim.upload s' = NewClaim.upload s /\
   NewClaim.requests s' = NewClaim.requests s /\
   NewClaim.error s' = JS.or_value (Http.detail e) "Failed to submit claim" /\
   NewClaim.toasts s' = NewClaim.toasts s ++ [Http.ToastError (NewClaim.error s')] /\
   (forall d : string,
      Http.detail e = Some (JS.Str d) -> d <> "" ->
      NewClaim.error s' = d /\ NewClaim.alert s' = Some (JS.Str d)) /\
   (JS.truthy_opt (Http.detail e) = false ->
    NewClaim.alert s' = Some (JS.Str "Failed to submit claim")) /\
   (forall v : JS.Value,
      Http.detail e = Some v -> JS.truthy_value v = true -> JS.is_string v = false ->
      NewClaim.alert s'
      = Some (JS.or_value (JS.get v "msg")
                (JS.or_value (JS.get v "detail") "An error occurred")))) /\
  (CarVerification.verificationStatus cs' = CarVerification.verificationStatus cs /\
   CarVerification.requests cs' = CarVerification.requests cs /\
   CarVerification.toasts cs'
   = CarVerification.toasts cs ++
     [Http.ToastError
        ("Failed to upload " +:+ angle +:+ " image: "
         +:+ JS.to_string (JS.or_value (Http.detail e) (Http.message e)))] /\
   (forall d : string,
      Http.detail e = Some (JS.Str d) -> d <> "" ->
      CarVerification.toasts cs'
      = CarVerification.toasts cs ++
        [Http.ToastError ("Failed to upload " +:+ angle +:+ " image: " +:+ d)]) /\
   (forall ev : CarVerification.Event,
      (forall id f, ev <> CarVerification.FileChosen id (Some f)) ->
      forall r, In r (CarVerification.requests (CarVerification.handle claimId ev cs')) ->
                In r (CarVerification.requests cs') \/ Http.method r = "GET")).
Proof.
  cbv zeta. split.
  - unfold NewClaim.handleSubmit_reply, NewClaim.alert.
    cbn [NewClaim.upload NewClaim.requests NewClaim.error NewClaim.toasts].
    split; [reflexivity|]. split; [reflexivity|]. split; [reflexivity|].
    split; [reflexivity|]. split; [|split].
    + intros d Hd Hne. rewrite (or_value_string e d _ Hd Hne).
      cbn [JS.truthy_value]. rewrite (truthy_nonempty d Hne). split; reflexivity.
    + intros Hf. unfold JS.or_value, JS.truthy_opt in *.
      destruct (Http.detail e) as [v|]; [rewrite Hf|]; reflexivity.
    + intros v Hd Ht Hs. unfold JS.or_value at 1 2. rewrite Hd, Ht, Ht.
      unfold NewClaim.alert_content. now rewrite Hs.
  - unfold CarVerification.handleFileUpload_reply, CarVerification.finally_upload.
    cbn [CarVerification.verificationStatus CarVerification.requests
         CarVerification.toasts].
    split; [reflexivity|]. split; [reflexivity|]. split; [reflexivity|]. split.
    + intros d Hd Hne. now rewrite (or_value_string e d _ Hd Hne).
    + intros ev Hev r Hr.
      destruct ev as [|id [f|]|a [|e']|[data|e']]; cbn in Hr.
      * apply in_app_or in Hr. destruct Hr as [Hr|[<-|[]]]; [now left | now right].
      * exfalso. now apply (Hev id f).
      * now left.
      * apply in_app_or in Hr. destruct Hr as [Hr|[<-|[]]]; [now left | now right].
      * now left.
      * now left.
      * now left.
Qed.

(** C3 witness: a 400 reply carrying a [detail] string. *)
Lemma C3_witness :
  NewClaim.files
    (NewClaim.handleSubmit_reply (NewClaim.Failed Sample.bad_request)
       (NewClaim.handleSubmit Sample.filled))
  = ImageUpload.files Sample.all_staged /\
  NewClaim.alert
    (NewClaim.handleSubmit_reply (NewClaim.Failed Sample.bad_request)
       (NewClaim.handleSubmit Sample.filled))
  = Some (JS.Str "Policy number not found") /\
  CarVerification.toasts
    (CarVerification.handleFileUpload_reply "17" "front"
       (CarVerification.UploadFailed Sample.bad_request) CarVerification.init)
  = [Http.ToastError "Failed to upload front image: Policy number not found"].
Proof.
  destruct (C3_failure_keeps_queue_and_shows_detail
              (NewClaim.handleSubmit Sample.filled)
              "17" "front" CarVerification.init Sample.bad_request)
    as [[H1 [_ [_ [_ [H2 _]]]]] [_ [_ [_ [H3 _]]]]].
  destruct (H2 "Policy number not found" eq_refl) as [_ H2']; [discriminate|].
  specialize (H3 "Policy number not found" eq_refl).
  split; [|split].
  - unfold NewClaim.files. rewrite H1. reflexivity.
  - exact H2'.
  - rewrite H3; [reflexivity | discriminate].
Defined.

(** C3 as stated fails: a 422 reply whose [detail] is a list of field
    errors is a server failure with a message in its payload, and the
    alert shows "An error occurred" instead of it. *)
Lemma C3_counterexample_detail_list :
  ~ (forall (s : NewClaim.State) (e : Http.AxiosError) (d : JS.Value),
       Http.detail e = Some d ->
       NewClaim.alert (NewClaim.handleSubmit_reply (NewClaim.Failed e) s) = Some d).
Proof.
  intros H.
  destruct (Http.detail Sample.validation_error) as [d|] eqn:E; [|discriminate E].
  specialize (H (NewClaim.handleSubmit Sample.filled) Sample.validation_error d E).
  injection E as <-. vm_compute in H. discriminate.
Qed.

(** ** The verification status (CarVerification) *)

(** C10: whatever happens to the component, the cached verification
    record either stays as it is or is replaced as a whole by the record
    a status request returned; a successful upload leaves it as it is. *)
Theorem C10_status_changes_only_by_refresh
    (claimId : string) (ev : CarVerification.Event) (s : CarVerification.State) :
  CarVerification.verificationStatus (CarVerification.handle claimId ev s)
  = CarVerification.verificationStatus s \/
  exists data,
    ev = CarVerification.StatusReplied (CarVerification.StatusOk data) /\
    CarVerification.verificationStatus (CarVerification.handle claimId ev s) = Some data.
Proof.
  destruct ev as [|id [f|]|angle [|e]|[data|e]]; cbn;
    try (left; reflexivity).
  right. exists data. split; reflexivity.
Qed.

(** C4 (as the code has it): a successful upload issues a status request
    and leaves the cached record alone; once that request succeeds the
    progress is [Math.round(verified_angles / total_angles * 100)] of the
    record the server returned.  With four angles it grows by exactly 25
    when the server counts one more verified angle, and it does not grow
    when the server's counts are the same. *)
Theorem C4_progress_follows_server_status
    (claimId angle : string) (s : CarVerification.State)
    (data : CarVerification.Status) :
  let s1 := CarVerification.handleFileUpload_reply claimId angle CarVerification.UploadOk s in
  let s2 := CarVerification.fetchVerificationStatus_reply (CarVerification.StatusOk data) s1 in
  CarVerification.requests s1 =
    CarVerification.requests s ++
    [Http.mkRequest "GET" ("/api/car-verification/status/" +:+ claimId) []] /\
  CarVerification.verificationStatus s1 = CarVerification.verificationStatus s /\
  CarVerification.overallProgress (CarVerification.verificationStatus s2) =
    JS.math_round
      (PrimFloat.mul
         (PrimFloat.div (CarVerification.verified_angles data)
            (CarVerification.total_angles data)) 100%float) /\
  (forall (v : Z) (old : CarVerification.Status),
     (0 <= v < 4)%Z ->
     CarVerification.verificationStatus s = Some old ->
     CarVerification.verified_angles old = JS.float_of_Z v ->
     CarVerification.total_angles old = 4%float ->
     CarVerification.verified_angles data = JS.float_of_Z (v + 1) ->
     CarVerification.total_angles data = 4%float ->
     CarVerification.overallProgress (CarVerification.verificationStatus s2) =
     PrimFloat.add
       (CarVerification.overallProgress (CarVerification.verificationStatus s))
       25%float) /\
  (forall old : CarVerification.Status,
     CarVerification.verificationStatus s = Some old ->
     CarVerification.verified_angles data = CarVerification.verified_angles old ->
     CarVerification.total_angles data = CarVerification.total_angles old ->
     CarVerification.overallProgress (CarVerification.verificationStatus s2) =
     CarVerification.overallProgress (CarVerification.verificationStatus s)).
Proof.
  cbn. split; [reflexivity|]. split; [reflexivity|]. split; [reflexivity|]. split.
  - intros v old Hv Hs Hvo Hto Hvd Htd. rewrite Hs. cbn.
    rewrite Hvo, Hto, Hvd, Htd.
    assert (v = 0 \/ v = 1 \/ v = 2 \/ v = 3)%Z as Hcases by lia.
    destruct Hcases as [->|[->|[->| ->]]]; vm_compute; reflexivity.
  - intros old Hs Hv Ht. rewrite Hs. cbn. now rewrite Hv, Ht.
Qed.

(** C4 witness: four angles, the first one verified by the upload. *)
Lemma C4_witness :
  CarVerification.overallProgress
    (CarVerification.verificationStatus
       (CarVerification.fetchVerificationStatus_reply
          (CarVerification.StatusOk (Sample.status_of 1%float "pending"))
          (CarVerification.handleFileUpload_reply "17" "front" CarVerification.UploadOk
             (Sample.loaded (Sample.status_of 0%float "pending")))))
  = 25%float.
Proof.
  destruct (C4_progress_follows_server_status "17" "front"
              (Sample.loaded (Sample.status_of 0%float "pending"))
              (Sample.status_of 1%float "pending")) as [_ [_ [_ [H _]]]].
  cbv zeta in H.
  rewrite (H 0%Z (Sample.status_of 0%float "pending")).
  - reflexivity.
  - lia.
  - reflexivity.
  - reflexivity.
  - reflexivity.
  - reflexivity.
  - reflexivity.
Defined.

(** C4 as stated fails: the upload of the front image succeeds, the
    server stores it for review and still counts no verified angle, and
    the progress stays at 0 instead of reaching 25. *)
Lemma C4_counterexample_upload_pending_review :
  ~ (forall (claimId angle : string) (s : CarVerification.State)
            (data : CarVerification.Status),
       PrimFloat.eqb
         (CarVerification.overallProgress
            (CarVerification.verificationStatus
               (CarVerification.fetchVerificationStatus_reply
                  (CarVerification.StatusOk data)
                  (CarVerification.handleFileUpload_reply claimId angle
                     CarVerification.UploadOk s))))
         (PrimFloat.add
            (CarVerification.overallProgress (CarVerification.verificationStatus s))
            (PrimFloat.div 100%float (CarVerification.total_angles data)))
       = true).
Proof.
  intros H.
  specialize (H "17" "front" (Sample.loaded (Sample.status_of 0%float "pending"))
                (Sample.status_of 0%float "pending")).
  vm_compute in H. discriminate.
Qed.

(** C5 (as the code has it): with four angles of which the server counts
    two verified, the progress is 50 and the progress badge reads
    "50% Complete" on the warning colour; the completion badge is shown
    exactly when the status field of the server's record is "complete",
    whatever the progress. *)
Theorem C5_half_verified_header (s : CarVerification.State) (v : CarVerification.Status) :
  CarVerification.verificationStatus s = Some v ->
  CarVerification.verified_angles v = 2%float ->
  CarVerification.total_angles v = 4%float ->
  CarVerification.overallProgress (CarVerification.verificationStatus s) = 50%float /\
  CarVerification.progressBadgeText (CarVerification.header s) = Some "50% Complete" /\
  CarVerification.progressBadgeBg (CarVerification.header s) = "warning" /\
  CarVerification.completionBadge (CarVerification.header s)
  = String.eqb (CarVerification.status v) "complete".
Proof.
  intros Hs Hv Ht.
  assert (CarVerification.overallProgress (CarVerification.verificationStatus s) = 50%float)
    as Hp.
  { rewrite Hs. unfold CarVerification.overallProgress. rewrite Hv, Ht.
    vm_compute. reflexivity. }
  unfold CarVerification.header.
  cbn [CarVerification.progressBadgeText CarVerification.progressBadgeBg
       CarVerification.completionBadge].
  rewrite Hp. split; [reflexivity|]. split; [vm_compute; reflexivity|].
  split; [vm_compute; reflexivity|]. rewrite Hs. reflexivity.
Qed.

(** C5 witness: two of four angles verified, review still pending. *)
Lemma C5_witness :
  CarVerification.render (Sample.loaded (Sample.status_of 2%float "pending"))
  = CarVerification.Card
      (CarVerification.mkHeader "warning" (Some "50% Complete") false).
Proof.
  destruct (C5_half_verified_header
              (Sample.loaded (Sample.status_of 2%float "pending"))
              (Sample.status_of 2%float "pending") eq_refl eq_refl eq_refl)
    as [_ [H1 [H2 H3]]].
  unfold CarVerification.render. cbn [CarVerification.isLoading Sample.loaded].
  destruct (CarVerification.header _) as [bg text badge].
  cbn in H1, H2, H3. rewrite H1, H2, H3. reflexivity.
Defined.

(** C5 as stated fails: the completion badge follows the status field,
    so a record that says "complete" with two of four angles verified
    shows it at 50 percent. *)
Lemma C5_counterexample_complete_at_50 :
  ~ (forall s : CarVerification.State,
       PrimFloat.ltb (CarVerification.overallProgress (CarVerification.verificationStatus s))
         100%float = true ->
       CarVerification.completionBadge (CarVerification.header s) = false).
Proof.
  intros H.
  specialize (H (Sample.loaded (Sample.status_of 2%float "complete"))).
  assert (PrimFloat.ltb
            (CarVerification.overallProgress
               (CarVerification.verificationStatus
                  (Sample.loaded (Sample.status_of 2%float "complete"))))
            100%float = true) as Hlt by (vm_compute; reflexivity).
  specialize (H Hlt). vm_compute in H. discriminate.
Qed.

(** ** The upload queue (ImageUpload) *)

(** C6: two files dropped under front and one under rear give the
    coverage front 2, rear 1 (and 0 for back and top, the other keys of
    the object). *)
Theorem C6_coverage_after_add (tokens : nat -> string) (a b c : File.t) :
  map FileItem.file (ImageUpload.files (Sample.staged tokens a b c)) = [a; b; c] /\
  map FileItem.category (ImageUpload.files (Sample.staged tokens a b c))
  = ["front"; "front"; "rear"] /\
  ImageUpload.getCategoryStats (ImageUpload.files (Sample.staged tokens a b c))
  = <["front" := 2%nat]> (<["rear" := 1%nat]> (<["back" := 0%nat]> (<["top" := 0%nat]> ∅))).
Proof.
  split; [reflexivity|]. split; [reflexivity|].
  apply map_eq. intros k. rewrite getCategoryStats_lookup.
  destruct (String.eqb_spec "front" k) as [<-|Hf]; [reflexivity|].
  rewrite lookup_insert_ne by assumption.
  destruct (String.eqb_spec "rear" k) as [<-|Hr]; [reflexivity|].
  rewrite lookup_insert_ne by assumption.
  destruct (String.eqb_spec "back" k) as [<-|Hb]; [reflexivity|].
  rewrite lookup_insert_ne by assumption.
  destruct (String.eqb_spec "top" k) as [<-|Ht]; [reflexivity|].
  rewrite lookup_insert_ne by assumption.
  rewrite lookup_empty.
  unfold ImageUpload.is_category_value, ImageUpload.imageCategories.
  cbn [existsb Category.value].
  apply String.eqb_neq in Hf, Hr, Hb, Ht. now rewrite Hf, Hr, Hb, Ht.
Qed.

(** C7 (as the code has it): removing the first file of the queue
    [a@front, b@front, c@rear] leaves [b] and [c], the coverage front 1,
    rear 1, and no queued item that refers to the preview of [a]; the
    object URL of that preview is not revoked: it stays registered in
    the browser, whose state the removal does not touch. *)
Theorem C7_remove_updates_coverage_keeps_url (tokens : nat -> string) (a b c : File.t) :
  let s := Sample.staged tokens a b c in
  let s' := ImageUpload.handle (ImageUpload.Remove 0) s in
  map FileItem.file (ImageUpload.files s') = [b; c] /\
  ImageUpload.getCategoryStats (ImageUpload.files s') !! "front" = Some 1%nat /\
  ImageUpload.getCategoryStats (ImageUpload.files s') !! "rear" = Some 1%nat /\
  ImageUpload.getCategoryStats (ImageUpload.files s') !! "back" = Some 0%nat /\
  ImageUpload.getCategoryStats (ImageUpload.files s') !! "top" = Some 0%nat /\
  map FileItem.preview (ImageUpload.files s) = [0; 1; 2]%nat /\
  map FileItem.preview (ImageUpload.files s') = [1; 2]%nat /\
  ImageUpload.browser s' = ImageUpload.browser s /\
  Browser.blobs (ImageUpload.browser s') !! 0%nat = Some a.
Proof.
  cbv zeta. repeat split; try (rewrite getCategoryStats_lookup; reflexivity).
Qed.

(** C7 as stated fails: after the removal the object URL of the removed
    file's preview is still live. *)
Lemma C7_counterexample_preview_still_live :
  ~ (forall (s : ImageUpload.State) (i : nat) (item : FileItem.t),
       ImageUpload.files s !! i = Some item ->
       Browser.live (FileItem.preview item)
         (ImageUpload.browser (ImageUpload.handle (ImageUpload.Remove i) s)) = false).
Proof.
  intros H.
  destruct (ImageUpload.files Sample.three_staged) as [|item rest] eqn:E;
    [discriminate E|].
  specialize (H Sample.three_staged 0%nat item).
  rewrite E in H. specialize (H eq_refl).
  injection E as <- _. vm_compute in H. discriminate.
Qed.

(** C8 at the failing input: with [maxFiles] 12, two drops of twelve
    images each are both taken, and the queue holds 24 files. *)
Theorem C8_two_drops_exceed_maxFiles :
  let p := NewClaim.uploadProps in
  let s0 := ImageUpload.init Sample.tokens in
  let s1 := ImageUpload.handle (ImageUpload.Drop Sample.twelve) s0 in
  let s2 := ImageUpload.handle (ImageUpload.Drop Sample.twelve) s1 in
  ImageUpload.maxFiles p = 12%nat /\
  length Sample.twelve = 12%nat /\
  ImageUpload.enabled p s0 (ImageUpload.Drop Sample.twelve) = true /\
  ImageUpload.enabled p s1 (ImageUpload.Drop Sample.twelve) = true /\
  length (ImageUpload.files s2) = 24%nat.
Proof. cbv zeta. repeat split. Qed.

Lemma filteri_from_In {A} (p : nat -> bool) (l : list A) (i : nat) (x : A) :
  In x (JS.filteri_from i p l) -> In x l.
Proof.
  revert i. induction l as [|y l IH]; intros i; simpl; [tauto|].
  destruct (p i); simpl; intros H.
  - destruct H as [->|H]; [now left | right; eauto].
  - right; eauto.
Qed.

Lemma mapi_from_In {A B} (f : A -> nat -> B) (l : list A) (i : nat) (y : B) :
  In y (JS.mapi_from i f l) -> exists x j, In x l /\ y = f x j.
Proof.
  revert i. induction l as [|x l IH]; intros i; simpl; [tauto|].
  intros [<-|H].
  - exists x, i. split; [now left | reflexivity].
  - destruct (IH _ H) as [x' [j [Hx Hy]]]. exists x', j. split; [now right | assumption].
Qed.

Lemma make_file_objects_category (sel : string) (fs : list File.t) (b : Browser.t)
    (item : FileItem.t) :
  In item (fst (ImageUpload.make_file_objects sel fs b)) ->
  FileItem.category item = sel.
Proof.
  revert b. induction fs as [|f fs IH]; intros b; simpl; [tauto|].
  destruct (ImageUpload.make_file_objects sel fs _) as [items b2] eqn:E.
  simpl. intros [<-|H]; [reflexivity|].
  eapply IH. rewrite E. exact H.
Qed.

(** The invariant of the widget: the selected category and the category
    of every queued file are values of [imageCategories]. *)
Lemma categories_preserved (p : ImageUpload.Props) (s : ImageUpload.State)
    (ev : ImageUpload.Event) :
  ImageUpload.is_category_value (ImageUpload.selectedCategory s) = true ->
  (forall f, In f (ImageUpload.files s) ->
             ImageUpload.is_category_value (FileItem.category f) = true) ->
  ImageUpload.enabled p s ev = true ->
  ImageUpload.is_category_value
    (ImageUpload.selectedCategory (ImageUpload.handle ev s)) = true /\
  (forall f, In f (ImageUpload.files (ImageUpload.handle ev s)) ->
             ImageUpload.is_category_value (FileItem.category f) = true).
Proof.
  intros Hsel Hfiles Hen. destruct ev as [fs|i|i c|c]; simpl.
  - unfold ImageUpload.onDrop.
    destruct (ImageUpload.make_file_objects _ fs _) as [newFiles b'] eqn:E.
    simpl. split; [assumption|]. intros f Hf. apply in_app_or in Hf.
    destruct Hf as [Hf|Hf]; [auto|].
    rewrite (make_file_objects_category (ImageUpload.selectedCategory s) fs
               (ImageUpload.browser s) f); [assumption|].
    now rewrite E.
  - split; [assumption|]. intros f Hf. apply Hfiles.
    unfold ImageUpload.removeFile, JS.filteri in Hf.
    eapply filteri_from_In; eauto.
  - simpl in Hen. apply andb_prop in Hen. destruct Hen as [_ Hc].
    split; [assumption|]. intros f Hf.
    unfold ImageUpload.updateFileCategory, JS.mapi in Hf.
    apply mapi_from_In in Hf. destruct Hf as [x [j [Hx ->]]].
    destruct (Nat.eqb j i); [exact Hc | auto].
  - simpl in Hen. apply andb_prop in Hen. destruct Hen as [_ Hc].
    split; [assumption | assumption].
Qed.

(** C9: in every state the widget can reach, the category of each
    queued file is one of front, rear, back, top; adding, removing and
    recategorising through the rendered controls all preserve this. *)
Theorem C9_queued_categories_in_enum
    (p : ImageUpload.Props) (tokens : nat -> string) (s : ImageUpload.State) :
  ImageUpload.reachable p tokens s ->
  forall f, In f (ImageUpload.files s) ->
            In (FileItem.category f) ["front"; "rear"; "back"; "top"].
Proof.
  intros Hreach.
  assert (ImageUpload.is_category_value (ImageUpload.selectedCategory s) = true /\
          forall f, In f (ImageUpload.files s) ->
                    ImageUpload.is_category_value (FileItem.category f) = true)
    as [_ Hinv].
  { induction Hreach as [|s ev Hreach [IH1 IH2] Hen].
    - split; [reflexivity | intros f []].
    - eapply categories_preserved; eauto. }
  intros f Hf. specialize (Hinv f Hf).
  unfold ImageUpload.is_category_value, ImageUpload.imageCategories in Hinv.
  cbn [existsb Category.value] in Hinv.
  repeat (apply orb_prop in Hinv; destruct Hinv as [Hinv|Hinv];
          [apply String.eqb_eq in Hinv; rewrite <- Hinv; simpl; tauto|]).
  discriminate.
Qed.

Lemma three_staged_reachable :
  ImageUpload.reachable NewClaim.uploadProps Sample.tokens Sample.three_staged.
Proof.
  unfold Sample.three_staged.
  repeat (apply ImageUpload.reach_step; [|reflexivity]).
  apply ImageUpload.reach_init.
Qed.

(** C9 witness: the queue [f1@front, f2@front, f3@rear] with its third
    file moved to top. *)
Lemma C9_witness :
  Forall (fun f => In (FileItem.category f) ["front"; "rear"; "back"; "top"])
    (ImageUpload.files
       (ImageUpload.handle (ImageUpload.ChangeFileCategory 2 "top")
          Sample.three_staged)).
Proof.
  apply List.Forall_forall.
  apply (C9_queued_categories_in_enum NewClaim.uploadProps Sample.tokens).
  apply ImageUpload.reach_step; [|reflexivity].
  apply three_staged_reachable.
Defined.

(** * Further properties of the components *)

(** ** The upload queue *)

Lemma make_file_objects_spec (sel : string) (fs : list File.t) (b : Browser.t) :
  map FileItem.file (fst (ImageUpload.make_file_objects sel fs b)) = fs /\
  map FileItem.preview (fst (ImageUpload.make_file_objects sel fs b))
  = seq (Browser.next_url b) (length fs) /\
  Browser.next_url (snd (ImageUpload.make_file_objects sel fs b))
  = (Browser.next_url b + length fs)%nat /\
  Forall (fun item =>
            FileItem.category item = sel /\
            FileItem.categoryLabel item = ImageUpload.label_of sel /\
            FileItem.status item = "ready" /\
            FileItem.name item = File.name (FileItem.file item) /\
            FileItem.size item = File.size (FileItem.file item) /\
            FileItem.type item = File.type (FileItem.file item))
         (fst (ImageUpload.make_file_objects sel fs b)).
Proof.
  revert b. induction fs as [|f fs IH]; intros b.
  - simpl. repeat split; [lia | constructor].
  - cbn [ImageUpload.make_file_objects ImageUpload.make_file_object
         Browser.createObjectURL Browser.random_id].
    match goal with
    | |- context [ImageUpload.make_file_objects sel fs ?b1] =>
        specialize (IH b1); destruct (ImageUpload.make_file_objects sel fs b1)
          as [items b2]
    end.
    cbn [fst snd Browser.next_url] in IH |- *.
    destruct IH as [H1 [H2 [H3 H4]]].
    cbn [map FileItem.file FileItem.preview length seq].
    rewrite H1, H2, H3. repeat split; [lia|].
    constructor; [|exact H4]. repeat split.
Qed.

(** X1: a drop appends one item per accepted file, in order, after the
    items already queued; each new item carries the category selected at
    the time of the drop, the status "ready" and the name, size and type
    of its file. *)
Theorem X1_onDrop_appends (sel : string) (fs : list File.t)
    (prev : list FileItem.t) (b : Browser.t) :
  let fl := fst (ImageUpload.onDrop sel fs prev b) in
  length fl = (length prev + length fs)%nat /\
  firstn (length prev) fl = prev /\
  map FileItem.file (skipn (length prev) fl) = fs /\
  Forall (fun item =>
            FileItem.category item = sel /\
            FileItem.categoryLabel item = ImageUpload.label_of sel /\
            FileItem.status item = "ready" /\
            FileItem.name item = File.name (FileItem.file item) /\
            FileItem.size item = File.size (FileItem.file item) /\
            FileItem.type item = File.type (FileItem.file item))
         (skipn (length prev) fl).
Proof.
  cbv zeta. unfold ImageUpload.onDrop.
  pose proof (make_file_objects_spec sel fs b) as [H1 [_ [_ H4]]].
  destruct (ImageUpload.make_file_objects sel fs b) as [newFiles b'].
  cbn [fst] in *.
  assert (length newFiles = length fs) as Hlen.
  { rewrite <- H1. now rewrite length_map. }
  rewrite length_app, Hlen. split; [reflexivity|].
  rewrite firstn_app, Nat.sub_diag, firstn_all. cbn [firstn]. rewrite app_nil_r.
  split; [reflexivity|].
  rewrite skipn_app, Nat.sub_diag, skipn_all. cbn [skipn app].
  split; assumption.
Qed.

Lemma make_file_objects_blobs (sel : string) (fs : list File.t) (b : Browser.t) (u : nat) :
  Browser.blobs (snd (ImageUpload.make_file_objects sel fs b)) !! u =
  if decide (Browser.next_url b <= u < Browser.next_url b + length fs)%nat
  then nth_error fs (u - Browser.next_url b)%nat
  else Browser.blobs b !! u.
Proof.
  revert b. induction fs as [|f fs IH]; intros b.
  - simpl. case_decide; [lia | reflexivity].
  - cbn [ImageUpload.make_file_objects ImageUpload.make_file_object
         Browser.createObjectURL Browser.random_id].
    match goal with
    | |- context [ImageUpload.make_file_objects sel fs ?b1] =>
        specialize (IH b1); destruct (ImageUpload.make_file_objects sel fs b1)
          as [items b2]
    end.
    cbn [fst snd Browser.next_url Browser.blobs length] in IH |- *.
    rewrite IH. repeat case_decide; try lia.
    + replace (u - Browser.next_url b)%nat with (S (u - S (Browser.next_url b)))%nat by lia.
      reflexivity.
    + assert (u = Browser.next_url b) as -> by lia.
      rewrite lookup_insert_eq, Nat.sub_diag. reflexivity.
    + rewrite lookup_insert_ne by lia. reflexivity.
Qed.

(** X2: a drop registers one object URL per accepted file: the previews
    of the new items are the next free URLs, in order, each resolving to
    its file afterwards, and every URL that was live before the drop is
    still live. *)
Theorem X2_onDrop_allocates_previews (sel : string) (fs : list File.t)
    (prev : list FileItem.t) (b : Browser.t) :
  Download.fresh_next b ->
  let fl := fst (ImageUpload.onDrop sel fs prev b) in
  let b' := snd (ImageUpload.onDrop sel fs prev b) in
  map FileItem.preview (skipn (length prev) fl)
  = seq (Browser.next_url b) (length fs) /\
  (forall item, In item (skipn (length prev) fl) ->
                Browser.blobs b' !! FileItem.preview item = Some (FileItem.file item)) /\
  (forall u, Browser.live u b = true -> Browser.live u b' = true) /\
  Download.fresh_next b'.
Proof.
  intros Hfresh. cbv zeta. unfold ImageUpload.onDrop.
  pose proof (make_file_objects_spec sel fs b) as [H1 [H2 [H3 _]]].
  pose proof (make_file_objects_blobs sel fs b) as Hb.
  destruct (ImageUpload.make_file_objects sel fs b) as [newFiles b'].
  cbn [fst snd] in *.
  rewrite skipn_app, Nat.sub_diag, skipn_all. cbn [skipn app].
  split; [exact H2|]. split; [|split].
  - intros item Hin. apply In_nth_error in Hin. destruct Hin as [n Hn].
    assert (nth_error (map FileItem.preview newFiles) n = Some (FileItem.preview item))
      as Hp by now apply map_nth_error.
    assert (nth_error (map FileItem.file newFiles) n = Some (FileItem.file item))
      as Hf by now apply map_nth_error.
    rewrite H2 in Hp. rewrite H1 in Hf.
    assert (n < length fs)%nat as Hlt.
    { apply nth_error_Some. congruence. }
    rewrite nth_error_seq in Hp.
    destruct (Nat.ltb_spec n (length fs)); [|lia].
    injection Hp as Hp. rewrite Hb, <- Hp.
    case_decide; [|lia].
    replace (Browser.next_url b + n - Browser.next_url b)%nat with n by lia.
    exact Hf.
  - intros u Hu. pose proof (Hfresh u Hu) as Hlt.
    unfold Browser.live in *. rewrite Hb. case_decide; [lia | exact Hu].
  - intros u Hu. unfold Browser.live in Hu. rewrite Hb in Hu. rewrite H3.
    case_decide; [lia|]. pose proof (Hfresh u Hu). lia.
Qed.

Lemma fresh_next_init (tokens : nat -> string) :
  Download.fresh_next (Browser.init tokens).
Proof. intros u Hu. unfold Browser.live in Hu. cbn in Hu. now rewrite lookup_empty in Hu. Qed.

Lemma X2_witness :
  map FileItem.preview
    (fst (ImageUpload.onDrop "front" [Sample.f1; Sample.f2] []
            (Browser.init Sample.tokens)))
  = [0; 1]%nat.
Proof.
  exact (proj1 (X2_onDrop_allocates_previews "front" [Sample.f1; Sample.f2] []
                  (Browser.init Sample.tokens) (fresh_next_init Sample.tokens))).
Defined.

Lemma filteri_from_skip {A} (index i0 : nat) (l : list A) :
  (index < i0)%nat ->
  JS.filteri_from i0 (fun i => negb (Nat.eqb i index)) l = l.
Proof.
  revert i0. induction l as [|x l IH]; intros i0 Hlt; [reflexivity|].
  cbn [JS.filteri_from].
  destruct (Nat.eqb_spec i0 index); [lia|]. cbn [negb].
  rewrite IH by lia. reflexivity.
Qed.

Lemma filteri_from_remove {A} (index i0 : nat) (l : list A) :
  (i0 <= index)%nat ->
  JS.filteri_from i0 (fun i => negb (Nat.eqb i index)) l
  = firstn (index - i0) l ++ skipn (S (index - i0)) l.
Proof.
  revert i0. induction l as [|x l IH]; intros i0 Hle.
  - now rewrite firstn_nil, skipn_nil.
  - cbn [JS.filteri_from]. destruct (Nat.eqb_spec i0 index) as [->|Hne]; cbn [negb].
    + rewrite Nat.sub_diag. cbn [firstn skipn app].
      apply filteri_from_skip. lia.
    + rewrite IH by lia.
      replace (index - i0)%nat with (S (index - S i0)) by lia.
      reflexivity.
Qed.

Lemma removeFile_split (index : nat) (prev : list FileItem.t) :
  ImageUpload.removeFile index prev = firstn index prev ++ skipn (S index) prev.
Proof.
  unfold ImageUpload.removeFile, JS.filteri.
  rewrite filteri_from_remove by lia. now rewrite Nat.sub_0_r.
Qed.

(** X3: [removeFile] takes out exactly the item at the given index and
    keeps the others in order; an index beyond the queue removes nothing. *)
Theorem X3_removeFile_spec (index : nat) (prev : list FileItem.t) :
  ImageUpload.removeFile index prev = firstn index prev ++ skipn (S index) prev /\
  ((index < length prev)%nat ->
   length (ImageUpload.removeFile index prev) = (length prev - 1)%nat) /\
  ((length prev <= index)%nat -> ImageUpload.removeFile index prev = prev).
Proof.
  pose proof (removeFile_split index prev) as Heq.
  split; [exact Heq|]. split.
  - intros Hlt. rewrite Heq, length_app, length_firstn, length_skipn. lia.
  - intros Hge. rewrite Heq, firstn_all2 by lia. rewrite skipn_all2 by lia.
    apply app_nil_r.
Qed.

Lemma X3_witness :
  map FileItem.file (ImageUpload.removeFile 1 (ImageUpload.files Sample.three_staged))
  = [Sample.f1; Sample.f3] /\
  ImageUpload.removeFile 7 (ImageUpload.files Sample.three_staged)
  = ImageUpload.files Sample.three_staged.
Proof.
  destruct (X3_removeFile_spec 1 (ImageUpload.files Sample.three_staged)) as [H1 _].
  destruct (X3_removeFile_spec 7 (ImageUpload.files Sample.three_staged)) as [_ [_ H2]].
  split.
  - rewrite H1. reflexivity.
  - apply H2. vm_compute. lia.
Defined.





Lemma stat_is_zero_includes (fl : list FileItem.t) (c : string) :
  ImageUpload.is_category_value c = true ->
  ImageUpload.stat_is_zero (ImageUpload.getCategoryStats fl) c
  = negb (JS.includes c (NewClaim.uploadedCategories fl)).
Proof.
  intros Hc. unfold ImageUpload.stat_is_zero. rewrite getCategoryStats_lookup, Hc.
  destruct (JS.includes c (NewClaim.uploadedCategories fl)) eqn:E; cbn [negb].
  - apply includes_In, uploaded_category_iff, count_category_pos in E.
    destruct (ImageUpload.count_category fl c); [lia | reflexivity].
  - assert (ImageUpload.count_category fl c = 0%nat) as ->; [|reflexivity].
    apply count_category_zero. intros f Hf Hcat.
    assert (JS.includes c (NewClaim.uploadedCategories fl) = true) as Hin.
    { apply includes_In, uploaded_category_iff. eauto. }
    congruence.
Qed.

(** X5: the widget and the page agree on what is missing: the categories
    [getMissingCategories] lists under "Missing:" are, value for value
    and in the same order, those [validateImages] computes. *)
Theorem X5_widget_and_page_agree_on_missing (fl : list FileItem.t) :
  map Category.value (ImageUpload.getMissingCategories fl)
  = NewClaim.missingCategories fl.
Proof.
  unfold ImageUpload.getMissingCategories, NewClaim.missingCategories,
    ImageUpload.imageCategories, NewClaim.requiredCategories.
  cbn [List.filter Category.value].
  rewrite !stat_is_zero_includes by reflexivity.
  destruct (JS.includes "front" _), (JS.includes "rear" _),
    (JS.includes "back" _), (JS.includes "top" _); reflexivity.
Qed.

Lemma reachable_categories (p : ImageUpload.Props) (tokens : nat -> string)
    (s : ImageUpload.State) :
  ImageUpload.reachable p tokens s ->
  ImageUpload.is_category_value (ImageUpload.selectedCategory s) = true /\
  forall f, In f (ImageUpload.files s) ->
            ImageUpload.is_category_value (FileItem.category f) = true.
Proof.
  induction 1 as [|s ev Hreach [IH1 IH2] Hen].
  - split; [reflexivity | intros f []].
  - eapply categories_preserved; eauto.
Qed.

Lemma count_categories_sum (fl : list FileItem.t) :
  (forall f, In f fl -> ImageUpload.is_category_value (FileItem.category f) = true) ->
  (ImageUpload.count_category fl "front" + ImageUpload.count_category fl "rear"
   + ImageUpload.count_category fl "back" + ImageUpload.count_category fl "top")%nat
  = length fl.
Proof.
  unfold ImageUpload.count_category.
  induction fl as [|f fl IH]; intros Hall; [reflexivity|].
  assert (ImageUpload.is_category_value (FileItem.category f) = true) as Hf
    by (apply Hall; now left).
  specialize (IH (fun g Hg => Hall g (or_intror Hg))).
  unfold ImageUpload.is_category_value, ImageUpload.imageCategories in Hf.
  cbn [existsb Category.value] in Hf.
  cbn [List.filter length].
  destruct (String.eqb_spec "front" (FileItem.category f)) as [E|_].
  { rewrite <- E. cbn. lia. }
  destruct (String.eqb_spec "rear" (FileItem.category f)) as [E|_].
  { rewrite <- E. cbn. lia. }
  destruct (String.eqb_spec "back" (FileItem.category f)) as [E|_].
  { rewrite <- E. cbn. lia. }
  destruct (String.eqb_spec "top" (FileItem.category f)) as [E|_].
  { rewrite <- E. cbn. lia. }
  discriminate.
Qed.

(** X6: in every state the widget can reach, the four counts of the
    category coverage add up to the number of queued files: each file is
    counted once. *)
Theorem X6_coverage_counts_every_file
    (p : ImageUpload.Props) (tokens : nat -> string) (s : ImageUpload.State) :
  ImageUpload.reachable p tokens s ->
  (ImageUpload.stat_or_zero (ImageUpload.files s) "front"
   + ImageUpload.stat_or_zero (ImageUpload.files s) "rear"
   + ImageUpload.stat_or_zero (ImageUpload.files s) "back"
   + ImageUpload.stat_or_zero (ImageUpload.files s) "top")%nat
  = length (ImageUpload.files s).
Proof.
  intros Hreach. apply reachable_categories in Hreach. destruct Hreach as [_ Hall].
  unfold ImageUpload.stat_or_zero. rewrite !getCategoryStats_lookup.
  cbn [ImageUpload.is_category_value]. now apply count_categories_sum.
Qed.

Lemma X6_witness :
  (ImageUpload.stat_or_zero (ImageUpload.files Sample.three_staged) "front"
   + ImageUpload.stat_or_zero (ImageUpload.files Sample.three_staged) "rear"
   + ImageUpload.stat_or_zero (ImageUpload.files Sample.three_staged) "back"
   + ImageUpload.stat_or_zero (ImageUpload.files Sample.three_staged) "top")%nat
  = 3%nat.
Proof.
  rewrite (X6_coverage_counts_every_file NewClaim.uploadProps Sample.tokens).
  - reflexivity.
  - apply three_staged_reachable.
Defined.

(** X7: the widget never revokes an object URL: in every state it can
    reach, every URL handed out so far, whether its file is still queued
    or was removed, is live. *)
Theorem X7_previews_never_revoked
    (p : ImageUpload.Props) (tokens : nat -> string) (s : ImageUpload.State) :
  ImageUpload.reachable p tokens s ->
  forall u, Browser.live u (ImageUpload.browser s) = true
            <-> (u < Browser.next_url (ImageUpload.browser s))%nat.
Proof.
  induction 1 as [|s ev Hreach IH Hen]; intros u.
  - cbn. unfold Browser.live. cbn. rewrite lookup_empty. split; [discriminate | lia].
  - destruct ev as [fs|i|i c|c]; try exact (IH u).
    cbn [ImageUpload.handle]. unfold ImageUpload.onDrop.
    pose proof (make_file_objects_spec (ImageUpload.selectedCategory s) fs
                  (ImageUpload.browser s)) as [_ [_ [H3 _]]].
    pose proof (make_file_objects_blobs (ImageUpload.selectedCategory s) fs
                  (ImageUpload.browser s) u) as Hb.
    destruct (ImageUpload.make_file_objects _ fs _) as [newFiles b'].
    cbn [fst snd ImageUpload.browser] in *.
    unfold Browser.live in *. rewrite Hb, H3. case_decide as Hd.
    + destruct (nth_error fs (u - Browser.next_url (ImageUpload.browser s))) eqn:E.
      * split; [lia | reflexivity].
      * apply nth_error_None in E. lia.
    + rewrite IH. lia.
Qed.

Lemma X7_witness :
  Browser.live 0
    (ImageUpload.browser
       (ImageUpload.handle (ImageUpload.Remove 0) Sample.three_staged)) = true.
Proof.
  apply (X7_previews_never_revoked NewClaim.uploadProps Sample.tokens).
  - apply ImageUpload.reach_step; [|reflexivity]. apply three_staged_reachable.
  - vm_compute. lia.
Defined.

Lemma count_category_app (l1 l2 : list FileItem.t) (c : string) :
  ImageUpload.count_category (l1 ++ l2) c
  = (ImageUpload.count_category l1 c + ImageUpload.count_category l2 c)%nat.
Proof. unfold ImageUpload.count_category. now rewrite List.filter_app, length_app. Qed.

(** X8: removing a queued file lowers the count of its own category by
    one and leaves the counts of the other categories as they were. *)
Theorem X8_removeFile_coverage (index : nat) (prev : list FileItem.t)
    (item : FileItem.t) (c : string) :
  nth_error prev index = Some item ->
  ImageUpload.count_category prev c
  = (ImageUpload.count_category (ImageUpload.removeFile index prev) c
     + (if String.eqb (FileItem.category item) c then 1 else 0))%nat.
Proof.
  intros Hnth.
  rewrite removeFile_split.
  pose proof (nth_error_split prev index Hnth) as [l1 [l2 [Hprev Hlen]]].
  subst prev index.
  rewrite firstn_app, Nat.sub_diag, firstn_all. cbn [firstn]. rewrite app_nil_r.
  change (S (length l1)) with (1 + length l1)%nat.
  rewrite <- skipn_skipn, skipn_app, Nat.sub_diag, skipn_all. cbn [skipn app].
  rewrite !count_category_app.
  assert (ImageUpload.count_category (item :: l2) c
          = ((if String.eqb (FileItem.category item) c then 1 else 0)
             + ImageUpload.count_category l2 c)%nat) as ->.
  { unfold ImageUpload.count_category. cbn [List.filter].
    now destruct (String.eqb (FileItem.category item) c). }
  rewrite skipn_O. destruct (String.eqb (FileItem.category item) c); lia.
Qed.

Lemma X8_witness :
  ImageUpload.count_category
    (ImageUpload.removeFile 2 (ImageUpload.files Sample.three_staged)) "rear" = 0%nat.
Proof.
  destruct (ImageUpload.files Sample.three_staged) as [|a [|b [|c rest]]] eqn:E;
    try discriminate E.
  pose proof (X8_removeFile_coverage 2 (a :: b :: c :: rest) c "rear" eq_refl) as H.
  injection E as <- <- <- <-.
  vm_compute in H |- *. reflexivity.
Defined.

(** ** The claim form *)

(** X9: [handleChange] stores the typed value under the name of the
    control: the field reads back as that value, every other field reads
    as before, and the queue, the flags and the requests are untouched. *)
Theorem X9_handleChange_sets_one_field (name value : string) (s : NewClaim.State) :
  NewClaim.field (NewClaim.formData (NewClaim.handleChange name value s)) name
  = Http.Text value /\
  (forall k, k <> name ->
     NewClaim.field (NewClaim.formData (NewClaim.handleChange name value s)) k
     = NewClaim.field (NewClaim.formData s) k) /\
  NewClaim.upload (NewClaim.handleChange name value s) = NewClaim.upload s /\
  NewClaim.loading (NewClaim.handleChange name value s) = NewClaim.loading s /\
  NewClaim.error (NewClaim.handleChange name value s) = NewClaim.error s /\
  NewClaim.requests (NewClaim.handleChange name value s) = NewClaim.requests s.
Proof.
  unfold NewClaim.handleChange, NewClaim.field. cbn. rewrite lookup_insert_eq.
  repeat split. intros k Hk. now rewrite lookup_insert_ne by congruence.
Qed.

Lemma X9_witness :
  NewClaim.field
    (NewClaim.formData (NewClaim.handleChange "location" "Pune" (NewClaim.init Sample.tokens)))
    "description"
  = Http.Text "".
Proof.
  rewrite (proj1 (proj2 (X9_handleChange_sets_one_field "location" "Pune"
                           (NewClaim.init Sample.tokens)))).
  - reflexivity.
  - discriminate.
Defined.

Lemma covered_or_not (fl : list FileItem.t) :
  NewClaim.missingCategories fl = [] \/ NewClaim.missingCategories fl <> [].
Proof. destruct (NewClaim.missingCategories fl); [left | right]; congruence. Qed.

Lemma handleSubmit_cases (s : NewClaim.State) :
  (NewClaim.missingCategories (NewClaim.files s) = [] /\
   NewClaim.handleSubmit s =
   NewClaim.mkState (NewClaim.formData s) (NewClaim.upload s) true ""
     (NewClaim.toasts s) (NewClaim.navigation s)
     (NewClaim.requests s ++
      [Http.mkRequest "POST" "/claims"
         (NewClaim.formDataToSend (NewClaim.formData s) (NewClaim.files s))])) \/
  (NewClaim.missingCategories (NewClaim.files s) <> [] /\
   exists msg, JS.truthy_string msg = true /\
               NewClaim.handleSubmit s = NewClaim.set_error msg s).
Proof.
  destruct (covered_or_not (NewClaim.files s)) as [Hc|Hm].
  - left. split; [assumption|].
    assert (NewClaim.files s <> []) as Hne.
    { intros E. rewrite E in Hc. discriminate Hc. }
    unfold NewClaim.handleSubmit.
    rewrite (validateImages_covered _ Hne Hc). reflexivity.
  - right. split; [assumption|].
    destruct (NewClaim.files s) as [|f fl] eqn:E.
    + exists "Please upload at least one image". split; [reflexivity|].
      apply handleSubmit_invalid; [now rewrite E | reflexivity].
    + exists (NewClaim.missing_message (NewClaim.missingCategories (f :: fl))).
      split; [apply missing_message_truthy|].
      apply handleSubmit_invalid; [|apply missing_message_truthy].
      rewrite E. apply validateImages_missing; [discriminate | assumption].
Qed.

(** X10: a submission either sends exactly one request and shows no
    alert, or sends nothing and shows an alert; it sends the request
    exactly when every required category has a staged file. *)
Theorem X10_submit_sends_iff_covered (s : NewClaim.State) :
  ((forall c, In c NewClaim.requiredCategories ->
              exists f, In f (NewClaim.files s) /\ FileItem.category f = c)
   <-> length (NewClaim.requests (NewClaim.handleSubmit s))
       = S (length (NewClaim.requests s))) /\
  ((forall c, In c NewClaim.requiredCategories ->
              exists f, In f (NewClaim.files s) /\ FileItem.category f = c)
   <-> NewClaim.alert (NewClaim.handleSubmit s) = None) /\
  (NewClaim.alert (NewClaim.handleSubmit s) <> None ->
   NewClaim.requests (NewClaim.handleSubmit s) = NewClaim.requests s).
Proof.
  rewrite <- missingCategories_nil_iff.
  destruct (handleSubmit_cases s) as [[Hc ->]|[Hm [msg [Ht ->]]]].
  - cbn [NewClaim.requests]. unfold NewClaim.alert. cbn.
    rewrite length_app. cbn [length]. repeat split; try tauto; try lia.
  - unfold NewClaim.alert, NewClaim.set_error. cbn. rewrite Ht.
    repeat split; try tauto; try lia; try discriminate.
Qed.

Lemma X10_witness :
  NewClaim.alert (NewClaim.handleSubmit (Sample.claim_with Sample.three_staged))
  = Some (JS.Str "Missing required vehicle images: Back, Top") /\
  NewClaim.requests (NewClaim.handleSubmit (Sample.claim_with Sample.three_staged)) = [].
Proof.
  split; [reflexivity|].
  apply (proj2 (proj2 (X10_submit_sends_iff_covered
                         (Sample.claim_with Sample.three_staged)))).
  discriminate.
Defined.

Lemma images_formDataToSend (fd : gmap string string) (fl : list FileItem.t) :
  NewClaimPage.images (NewClaim.formDataToSend fd fl) = map FileItem.file fl.
Proof.
  unfold NewClaim.formDataToSend, NewClaim.field.
  destruct (fd !! "policy_number"), (fd !! "accident_date"), (fd !! "location"),
    (fd !! "description"); cbn [app NewClaimPage.images];
    induction fl as [|f fl IH]; cbn; congruence.
Qed.


Lemma handleSubmit_formData (s : NewClaim.State) :
  NewClaim.formData (NewClaim.handleSubmit s) = NewClaim.formData s.
Proof.
  destruct (handleSubmit_cases s) as [[_ ->]|[_ [msg [_ ->]]]]; reflexivity.
Qed.

(** X11: in every state the page can reach, each of the four form
    fields has a value (the last one typed into its control, or the
    empty string), so a request never carries the text "undefined" in
    place of a field that was never set. *)
Theorem X11_page_fields_always_defined (tokens : nat -> string) (s : NewClaim.State) :
  NewClaimPage.reachable tokens s ->
  forall k, In k NewClaimPage.fieldNames ->
    exists v, NewClaim.formData s !! k = Some v /\
              NewClaim.field (NewClaim.formData s) k = Http.Text v.
Proof.
  intros Hreach.
  assert (forall k, In k NewClaimPage.fieldNames ->
                    exists v, NewClaim.formData s !! k = Some v) as H.
  { induction Hreach as [|s ev Hreach IH Hen]; intros k Hk.
    - cbn in Hk. destruct Hk as [<-|[<-|[<-|[<-|[]]]]]; vm_compute; eauto.
    - destruct ev as [name value|e| |r]; cbn [NewClaimPage.handle].
      + unfold NewClaim.handleChange. cbn [NewClaim.formData].
        destruct (String.eqb_spec name k) as [->|Hne].
        * exists value. apply lookup_insert_eq.
        * rewrite lookup_insert_ne by assumption. auto.
      + apply IH, Hk.
      + rewrite handleSubmit_formData. auto.
      + destruct r; apply IH, Hk. }
  intros k Hk. destruct (H k Hk) as [v Hv]. exists v. split; [assumption|].
  unfold NewClaim.field. now rewrite Hv.
Qed.

Lemma X11_witness :
  exists v,
    NewClaim.formData
      (NewClaimPage.handle (NewClaimPage.Change "location" "Pune")
         (NewClaim.init Sample.tokens)) !! "policy_number" = Some v /\
    NewClaim.field
      (NewClaim.formData
         (NewClaimPage.handle (NewClaimPage.Change "location" "Pune")
            (NewClaim.init Sample.tokens))) "policy_number" = Http.Text v.
Proof.
  apply (X11_page_fields_always_defined Sample.tokens).
  - apply NewClaimPage.reach_step; [apply NewClaimPage.reach_init | reflexivity].
  - cbn. tauto.
Defined.





Lemma all_staged_covered :
  forall c, In c NewClaim.requiredCategories ->
    exists f, In f (NewClaim.files (Sample.claim_with Sample.all_staged))
              /\ FileItem.category f = c.
Proof.
  intros c Hc. simpl in Hc.
  destruct Hc as [<-|[<-|[<-|[<-|[]]]]]; vm_compute; eauto 10.
Qed.

(** X13: a submission of a covered queue that the server accepts ends
    with no alert (an earlier error is cleared), the button enabled
    again, one request sent, a success notification, the navigation to
    the page of the created claim, and the queue as it was. *)
Theorem X13_successful_submission (s : NewClaim.State) (id : string) :
  (forall c, In c NewClaim.requiredCategories ->
             exists f, In f (NewClaim.files s) /\ FileItem.category f = c) ->
  let s' := NewClaim.handleSubmit_reply (NewClaim.Created id) (NewClaim.handleSubmit s) in
  NewClaim.alert s' = None /\
  NewClaim.loading s' = false /\
  NewClaim.navigation s' = NewClaim.navigation s ++ ["/claim/" +:+ id] /\
  NewClaim.toasts s' = NewClaim.toasts s ++ [Http.ToastSuccess "Claim submitted successfully!"] /\
  length (NewClaim.requests s') = S (length (NewClaim.requests s)) /\
  NewClaim.files s' = NewClaim.files s.
Proof.
  intros Hall. apply missingCategories_nil_iff in Hall.
  destruct (handleSubmit_cases s) as [[_ Hs]|[Hm _]]; [|contradiction].
  cbv zeta. rewrite Hs. unfold NewClaim.alert, NewClaim.files. cbn.
  rewrite length_app. cbn. repeat split. lia.
Qed.

Lemma X13_witness :
  NewClaim.navigation
    (NewClaim.handleSubmit_reply (NewClaim.Created "42")
       (NewClaim.handleSubmit (Sample.claim_with Sample.all_staged)))
  = ["/claim/42"].
Proof.
  exact (proj1 (proj2 (proj2
    (X13_successful_submission (Sample.claim_with Sample.all_staged) "42"
       all_staged_covered)))).
Defined.

(** X14: after a failed submission the user can press submit again
    without touching the queue: the second request is the same as the
    first, the error of the failure is cleared and the button is
    disabled while it is in flight. *)
Theorem X14_retry_resends_same_request (s : NewClaim.State) (e : Http.AxiosError) :
  (forall c, In c NewClaim.requiredCategories ->
             exists f, In f (NewClaim.files s) /\ FileItem.category f = c) ->
  let r := Http.mkRequest "POST" "/claims"
             (NewClaim.formDataToSend (NewClaim.formData s) (NewClaim.files s)) in
  let s' := NewClaim.handleSubmit
              (NewClaim.handleSubmit_reply (NewClaim.Failed e) (NewClaim.handleSubmit s)) in
  NewClaim.requests s' = NewClaim.requests s ++ [r; r] /\
  NewClaim.error s' = "" /\
  NewClaim.loading s' = true /\
  NewClaim.files s' = NewClaim.files s.
Proof.
  intros Hall. apply missingCategories_nil_iff in Hall.
  destruct (handleSubmit_cases s) as [[_ Hs]|[Hm _]]; [|contradiction].
  cbv zeta. rewrite Hs.
  match goal with
  | |- context [NewClaim.handleSubmit ?t] =>
      destruct (handleSubmit_cases t) as [[_ Ht]|[Hm _]]
  end.
  - rewrite Ht. unfold NewClaim.files. cbn. rewrite <- app_assoc. repeat split.
  - exfalso. apply Hm. exact Hall.
Qed.

Lemma X14_witness :
  length
    (NewClaim.requests
       (NewClaim.handleSubmit
          (NewClaim.handleSubmit_reply (NewClaim.Failed Sample.bad_request)
             (NewClaim.handleSubmit (Sample.claim_with Sample.all_staged)))))
  = 2%nat.
Proof.
  rewrite (proj1 (X14_retry_resends_same_request
                    (Sample.claim_with Sample.all_staged) Sample.bad_request
                    all_staged_covered)).
  reflexivity.
Defined.

(** X15: when the failure carries no [detail] (no response, no body, or
    a falsy [detail] such as an empty message) the submission shows
    "Failed to submit claim" and the per-angle upload shows the message
    of the error itself after "Failed to upload <angle> image: ". *)
Theorem X15_failure_without_detail
    (s : NewClaim.State) (claimId angle : string) (cs : CarVerification.State)
    (e : Http.AxiosError) :
  JS.truthy_opt (Http.detail e) = false ->
  NewClaim.error (NewClaim.handleSubmit_reply (NewClaim.Failed e) s)
  = "Failed to submit claim" /\
  NewClaim.toasts (NewClaim.handleSubmit_reply (NewClaim.Failed e) s)
  = NewClaim.toasts s ++ [Http.ToastError "Failed to submit claim"] /\
  CarVerification.toasts
    (CarVerification.handleFileUpload_reply claimId angle (CarVerification.UploadFailed e) cs)
  = CarVerification.toasts cs ++
    [Http.ToastError ("Failed to upload " +:+ angle +:+ " image: " +:+ Http.message e)].
Proof.
  intros Hd.
  assert (forall d, JS.or_value (Http.detail e) d = d) as Hor.
  { intros d. unfold JS.or_value, JS.truthy_opt in *.
    destruct (Http.detail e) as [x|]; [now rewrite Hd | reflexivity]. }
  unfold NewClaim.handleSubmit_reply, CarVerification.handleFileUpload_reply,
    CarVerification.finally_upload.
  cbn [NewClaim.error NewClaim.toasts CarVerification.toasts].
  rewrite !Hor. repeat split.
Qed.

Lemma X15_witness :
  NewClaim.alert
    (NewClaim.handleSubmit_reply (NewClaim.Failed Sample.network_error)
       (Sample.claim_with Sample.all_staged))
  = Some (JS.Str "Failed to submit claim").
Proof.
  unfold NewClaim.alert.
  rewrite (proj1 (X15_failure_without_detail (Sample.claim_with Sample.all_staged)
                    "17" "front" CarVerification.init Sample.network_error eq_refl)).
  reflexivity.
Defined.

(** ** The verification card *)

(** X16: after any series of events, in any order, the cached record is
    the one returned by the last status request that succeeded (the one
    held at the start if none did): uploads, failed requests and file
    selections never alter it. *)
Theorem X16_cache_is_last_successful_status
    (claimId : string) (evs : list CarVerification.Event) (s : CarVerification.State) :
  CarVerification.verificationStatus (CarVerification.run claimId evs s)
  = CarVerificationView.last_status evs (CarVerification.verificationStatus s).
Proof.
  revert s. induction evs as [|ev evs IH]; intros s; [reflexivity|].
  change (CarVerification.run claimId (ev :: evs) s)
    with (CarVerification.run claimId evs (CarVerification.handle claimId ev s)).
  rewrite IH.
  destruct ev as [|id [f|]|angle [|e]|[data|e]]; reflexivity.
Qed.

Lemma check_all_100 : Counts.check_all 100 = true.
Proof. vm_compute. reflexivity. Qed.

Lemma check_in_range (v t : nat) :
  (1 <= t <= 100)%nat -> (v <= t)%nat -> Counts.check v t = true.
Proof.
  intros Ht Hv. pose proof check_all_100 as H. unfold Counts.check_all in H.
  rewrite forallb_forall in H.
  assert (In t (seq 1 100)) as Hin by (apply in_seq; lia).
  specialize (H t Hin). rewrite forallb_forall in H.
  apply H. apply in_seq. lia.
Qed.

(** X17: for whole counts, with up to 100 angles and no more verified
    angles than angles, the progress is a whole number between 0 and
    100; it is 100, and the progress badge green, exactly when all
    angles are verified; it is within 1 of the exactly rounded
    percentage, and equal to it for up to 39 angles. *)
Theorem X17_progress_of_whole_counts (s : CarVerification.State)
    (st : CarVerification.Status) (v t : nat) :
  (1 <= t <= 100)%nat -> (v <= t)%nat ->
  CarVerification.verificationStatus s = Some st ->
  CarVerification.verified_angles st = JS.float_of_Z (Z.of_nat v) ->
  CarVerification.total_angles st = JS.float_of_Z (Z.of_nat t) ->
  exists p : Z,
    JS.integral_value (CarVerification.overallProgress (Some st)) = Some p /\
    (0 <= p <= 100)%Z /\
    (p = 100%Z <-> v = t) /\
    (CarVerification.progressBadgeBg (CarVerification.header s) = "success" <-> v = t) /\
    (Z.abs (p - Counts.exact_percent v t) <= 1)%Z /\
    ((t <= 39)%nat -> p = Counts.exact_percent v t).
Proof.
  intros Ht Hv Hs Hva Hta. pose proof (check_in_range v t Ht Hv) as Hc.
  unfold Counts.check in Hc.
  assert (CarVerification.overallProgress (Some st) = Counts.progress v t) as Hp.
  { unfold CarVerification.overallProgress, Counts.progress. now rewrite Hva, Hta. }
  destruct (JS.integral_value (Counts.progress v t)) as [p|] eqn:Ep; [|discriminate].
  repeat (apply andb_prop in Hc; destruct Hc as [Hc ?]).
  exists p. rewrite Hp. split; [exact Ep|].
  assert ((p =? 100)%Z = Nat.eqb v t) as H100 by now apply Bool.eqb_prop.
  assert (PrimFloat.eqb (Counts.progress v t) 100%float = Nat.eqb v t) as Hbg
    by now apply Bool.eqb_prop.
  split; [lia|]. split; [|split; [|split]].
  - destruct (Nat.eqb_spec v t); destruct (Z.eqb_spec p 100); try discriminate; tauto.
  - unfold CarVerification.header. cbn [CarVerification.progressBadgeBg].
    rewrite Hs, Hp, Hbg.
    destruct (Nat.eqb_spec v t); split; try tauto; discriminate.
  - lia.
  - intros H39. destruct (Nat.leb_spec t 39); [|lia]. lia.
Qed.

Lemma X17_witness :
  exists p : Z,
    JS.integral_value
      (CarVerification.overallProgress (Some (Sample.status_of 3%float "pending")))
    = Some p /\ p = 75%Z.
Proof.
  destruct (X17_progress_of_whole_counts
              (Sample.loaded (Sample.status_of 3%float "pending"))
              (Sample.status_of 3%float "pending") 3 4) as [p [H1 [_ [_ [_ [_ H2]]]]]];
    try reflexivity; try lia.
  exists p. split; [exact H1|]. rewrite H2 by lia. reflexivity.
Defined.

Lemma bar_variant_all :
  forallb (fun p => String.eqb (Counts.bar_variant p) (Counts.expected_variant p))
    (seq 0 101) = true.
Proof. vm_compute. reflexivity. Qed.

(** X18: for a progress of [p] percent, [p] a whole number up to 100,
    the progress bar is green from 70 on, yellow from 40 to 69 and red
    below 40: dividing by 100 and comparing with 0.7 and 0.4 in double
    arithmetic puts the limits exactly at 70 and 40. *)
Theorem X18_progress_bar_variant (s : CarVerification.State) (p : nat) :
  (p <= 100)%nat ->
  CarVerification.overallProgress (CarVerification.verificationStatus s)
  = JS.float_of_Z (Z.of_nat p) ->
  CarVerificationView.variant (CarVerificationView.progressBar s)
  = if (70 <=? p)%nat then "success"
    else if (40 <=? p)%nat then "warning" else "danger".
Proof.
  intros Hp Hs. unfold CarVerificationView.progressBar.
  cbn [CarVerificationView.variant]. rewrite Hs.
  pose proof bar_variant_all as H. rewrite forallb_forall in H.
  specialize (H p). apply String.eqb_eq. apply H. apply in_seq. lia.
Qed.

Lemma X18_witness :
  CarVerificationView.variant
    (CarVerificationView.progressBar (Sample.loaded (Sample.status_of 3%float "pending")))
  = "success".
Proof.
  rewrite (X18_progress_bar_variant
             (Sample.loaded (Sample.status_of 3%float "pending")) 75).
  - reflexivity.
  - lia.
  - vm_compute. reflexivity.
Defined.

(** X19: a record that reports no angles at all (zero verified out of
    zero) makes the division yield NaN: the badge reads "NaN% Complete"
    on the warning colour and the bar is red with the label "NaN%". *)
Theorem X19_zero_angles_is_NaN (s : CarVerification.State) (st : CarVerification.Status) :
  CarVerification.verificationStatus s = Some st ->
  CarVerification.verified_angles st = 0%float ->
  CarVerification.total_angles st = 0%float ->
  CarVerification.progressBadgeText (CarVerification.header s) = Some "NaN% Complete" /\
  CarVerification.progressBadgeBg (CarVerification.header s) = "warning" /\
  CarVerificationView.variant (CarVerificationView.progressBar s) = "danger" /\
  CarVerificationView.barLabel (CarVerificationView.progressBar s) = Some "NaN%".
Proof.
  intros Hs Hv Ht.
  unfold CarVerification.header, CarVerificationView.progressBar.
  cbn [CarVerification.progressBadgeText CarVerification.progressBadgeBg
       CarVerificationView.variant CarVerificationView.barLabel].
  rewrite Hs. unfold CarVerification.overallProgress. rewrite Hv, Ht.
  repeat split; vm_compute; reflexivity.
Qed.

Lemma X19_witness :
  CarVerification.progressBadgeText
    (CarVerification.header
       (Sample.loaded (CarVerification.mkStatus 0%float 0%float None ∅ "pending")))
  = Some "NaN% Complete".
Proof.
  apply (X19_zero_angles_is_NaN
           (Sample.loaded (CarVerification.mkStatus 0%float 0%float None ∅ "pending"))
           (CarVerification.mkStatus 0%float 0%float None ∅ "pending"));
    reflexivity.
Defined.

(** X20: choosing a file for one angle disables the upload button of
    every angle, sets the spinner on that angle and sends one upload for
    this claim and angle with the file as its body; whatever the reply,
    all buttons are enabled again and no angle is marked active. *)
Theorem X20_upload_disables_all_buttons
    (claimId id : string) (f : File.t) (s : CarVerification.State)
    (r : CarVerification.UploadReply) :
  let s1 := CarVerification.onChange claimId id (Some f) s in
  let s2 := CarVerification.handleFileUpload_reply claimId id r s1 in
  Forall (fun c => CarVerificationView.buttonDisabled c = true)
    (CarVerificationView.cards s1) /\
  CarVerification.activeAngle s1 = Some id /\
  CarVerification.requests s1 =
    CarVerification.requests s ++
    [Http.mkRequest "POST"
       ("/api/car-verification/upload/" +:+ claimId +:+ "?angle=" +:+ id)
       [("file", Http.Blob f)]] /\
  Forall (fun c => CarVerificationView.buttonDisabled c = false)
    (CarVerificationView.cards s2) /\
  CarVerification.activeAngle s2 = None.
Proof.
  cbv zeta. split; [|split; [|split; [|split]]].
  - unfold CarVerificationView.cards. apply Forall_map, List.Forall_forall.
    intros a _. reflexivity.
  - reflexivity.
  - reflexivity.
  - unfold CarVerificationView.cards. apply Forall_map, List.Forall_forall.
    intros a _. destruct r; reflexivity.
  - destruct r; reflexivity.
Qed.

(** X21: after a successful upload the card gives way to the spinner
    until the status request is answered; if that request fails, the
    card comes back with the header it had before the upload. *)
Theorem X21_spinner_until_status_reply
    (claimId angle : string) (s : CarVerification.State) (e : Http.AxiosError) :
  let s1 := CarVerification.handleFileUpload_reply claimId angle CarVerification.UploadOk s in
  let s2 := CarVerification.fetchVerificationStatus_reply (CarVerification.StatusFailed e) s1 in
  CarVerification.render s1 = CarVerification.Spinner /\
  CarVerification.render s2 = CarVerification.Card (CarVerification.header s) /\
  CarVerification.toasts s2
  = CarVerification.toasts s ++
    [Http.ToastSuccess (angle +:+ " image uploaded successfully");
     Http.ToastError "Failed to load verification status"].
Proof.
  cbv zeta. unfold CarVerification.render. cbn. rewrite <- app_assoc.
  repeat split.
Qed.

(** X22: an angle for which the record has no entry, and every angle
    while no record has been loaded, is shown as "Not Uploaded" on the
    grey badge, with the button "Upload <label>" and no score. *)
Theorem X22_unknown_angle_not_uploaded (s : CarVerification.State) (a : Angle.t) :
  (forall st, CarVerification.verificationStatus s = Some st ->
              CarVerification.angles st !! Angle.id a = None) ->
  CarVerificationView.badgeText (CarVerificationView.angleCard s a) = "Not Uploaded" /\
  CarVerificationView.badgeBg (CarVerificationView.angleCard s a) = "secondary" /\
  CarVerificationView.border (CarVerificationView.angleCard s a) = "border-light" /\
  CarVerificationView.scorePercent (CarVerificationView.angleCard s a) = None /\
  CarVerificationView.buttonText (CarVerificationView.angleCard s a)
  = "Upload " +:+ Angle.label a.
Proof.
  intros H. unfold CarVerificationView.angleCard, CarVerificationView.angleData.
  destruct (CarVerification.verificationStatus s) as [st|]; [|repeat split].
  rewrite (H st eq_refl). repeat split.
Qed.

Lemma X22_witness :
  CarVerificationView.badgeText
    (CarVerificationView.angleCard (Sample.loaded (Sample.status_of 0%float "pending"))
       (Angle.mk "back" "Rear View" "Rear view showing the back of the vehicle"))
  = "Not Uploaded".
Proof.
  apply (X22_unknown_angle_not_uploaded
           (Sample.loaded (Sample.status_of 0%float "pending"))).
  intros st E. injection E as <-. reflexivity.
Defined.

(** X23: every request the component issues in a run is a status
    request for this claim or the upload of a file for this claim and
    one angle; no event removes a request from the log. *)
Theorem X23_component_requests
    (claimId : string) (evs : list CarVerification.Event) (s : CarVerification.State) :
  exists new,
    CarVerification.requests (CarVerification.run claimId evs s)
    = CarVerification.requests s ++ new /\
    Forall (fun r =>
              r = Http.mkRequest "GET" ("/api/car-verification/status/" +:+ claimId) []
              \/ exists angle f,
                   r = Http.mkRequest "POST"
                         ("/api/car-verification/upload/" +:+ claimId
                          +:+ "?angle=" +:+ angle)
                         [("file", Http.Blob f)])
           new.
Proof.
  revert s. induction evs as [|ev evs IH]; intros s.
  - exists []. split; [now rewrite app_nil_r | constructor].
  - change (CarVerification.run claimId (ev :: evs) s)
      with (CarVerification.run claimId evs (CarVerification.handle claimId ev s)).
    destruct (IH (CarVerification.handle claimId ev s)) as [new [Heq Hall]].
    rewrite Heq.
    destruct ev as [|id [f|]|angle [|e]|[data|e]]; cbn;
      try (exists new; split; [reflexivity | assumption]);
      rewrite <- app_assoc; eexists; (split; [reflexivity|]);
      constructor; eauto.
Qed.

(** ** Downloads *)

Lemma save_blob_spec (blob : File.t) (download : string) (w : Download.World) :
  Download.fresh_next (Download.browser w) ->
  Browser.blobs (Download.browser (Download.save_blob blob download w))
  = Browser.blobs (Download.browser w) /\
  Download.saved (Download.save_blob blob download w)
  = Download.saved w ++ [(download, blob)] /\
  Download.toasts (Download.save_blob blob download w) = Download.toasts w /\
  Download.requests (Download.save_blob blob download w) = Download.requests w /\
  Download.fresh_next (Download.browser (Download.save_blob blob download w)).
Proof.
  intros Hfresh.
  assert (Browser.blobs (Download.browser w) !! Browser.next_url (Download.browser w) = None)
    as Hnone.
  { destruct (Browser.blobs (Download.browser w) !! Browser.next_url (Download.browser w))
      eqn:E; [|reflexivity].
    assert (Browser.live (Browser.next_url (Download.browser w)) (Download.browser w) = true)
      as Hl by (unfold Browser.live; now rewrite E).
    apply Hfresh in Hl. lia. }
  unfold Download.save_blob, Download.click. cbn.
  rewrite lookup_insert_eq. cbn. rewrite delete_insert_eq.
  rewrite delete_id by exact Hnone.
  repeat split.
  intros u Hu. unfold Browser.live in Hu. cbn in Hu.
  rewrite delete_insert_eq, delete_id in Hu by exact Hnone.
  pose proof (Hfresh u Hu). cbn. lia.
Qed.

(** X24: a download of an image that succeeds saves the blob under the
    given file name ("image.jpg" when none is given) and leaves no
    object URL behind: the URL created for the link is revoked, so the
    browser holds the same URLs as before; a download that fails saves
    nothing and reports "Failed to download image". *)
Theorem X24_downloadImage_releases_url
    (filename : option string) (r : Download.BlobReply) (w : Download.World) :
  Download.fresh_next (Download.browser w) ->
  Browser.blobs (Download.browser (Download.downloadImage_reply filename r w))
  = Browser.blobs (Download.browser w) /\
  match r with
  | Download.BlobOk data =>
      Download.saved (Download.downloadImage_reply filename r w)
      = Download.saved w ++ [(JS.or_else filename "image.jpg", data)] /\
      Download.toasts (Download.downloadImage_reply filename r w) = Download.toasts w
  | Download.BlobFailed _ =>
      Download.saved (Download.downloadImage_reply filename r w) = Download.saved w /\
      Download.toasts (Download.downloadImage_reply filename r w)
      = Download.toasts w ++ [Http.ToastError "Failed to download image"]
  end.
Proof.
  intros Hfresh. destruct r as [data|e]; cbn [Download.downloadImage_reply].
  - destruct (save_blob_spec data (JS.or_else filename "image.jpg") w Hfresh)
      as [H1 [H2 [H3 _]]].
    auto.
  - repeat split.
Qed.

Lemma X24_witness :
  Download.saved
    (Download.downloadImage_reply None (Download.BlobOk Sample.f3)
       (Download.mkWorld (Browser.init Sample.tokens) [] [] []))
  = [("image.jpg", Sample.f3)].
Proof.
  destruct (X24_downloadImage_releases_url None (Download.BlobOk Sample.f3)
              (Download.mkWorld (Browser.init Sample.tokens) [] [] [])
              (fresh_next_init Sample.tokens)) as [_ [H _]].
  exact H.
Defined.

(** X25: generating a report without a claim does nothing; with a
    claim it asks for [/claims/<id>/report] in the chosen format; a
    successful reply saves the report as [claim_report_<id>.<format>],
    leaves no object URL behind, notifies and closes the dialog once; a
    failed reply saves nothing and leaves the dialog open; in both cases
    the button is enabled again. *)
Theorem X25_generateReport (id : string) (r : Download.BlobReply)
    (s : ReportGenerator.State) :
  Download.fresh_next (Download.browser (ReportGenerator.world s)) ->
  ReportGenerator.generateReport None s = (s, None) /\
  snd (ReportGenerator.generateReport (Some id) s)
  = Some (ReportGenerator.mkReportRequest ("/claims/" +:+ id +:+ "/report")
            (ReportGenerator.reportFormat s) (ReportGenerator.includeImages s)
            (ReportGenerator.includeAnalysis s)) /\
  ReportGenerator.generating (fst (ReportGenerator.generateReport (Some id) s)) = true /\
  let s1 := fst (ReportGenerator.generateReport (Some id) s) in
  let s2 := ReportGenerator.generateReport_reply id r s1 in
  ReportGenerator.generating s2 = false /\
  Browser.blobs (Download.browser (ReportGenerator.world s2))
  = Browser.blobs (Download.browser (ReportGenerator.world s)) /\
  match r with
  | Download.BlobOk data =>
      Download.saved (ReportGenerator.world s2)
      = Download.saved (ReportGenerator.world s)
        ++ [("claim_report_" +:+ id +:+ "." +:+ ReportGenerator.reportFormat s, data)] /\
      ReportGenerator.hidden s2 = S (ReportGenerator.hidden s) /\
      Download.toasts (ReportGenerator.world s2)
      = Download.toasts (ReportGenerator.world s)
        ++ [Http.ToastSuccess "Report downloaded successfully"]
  | Download.BlobFailed _ =>
      Download.saved (ReportGenerator.world s2) = Download.saved (ReportGenerator.world s) /\
      ReportGenerator.hidden s2 = ReportGenerator.hidden s /\
      Download.toasts (ReportGenerator.world s2)
      = Download.toasts (ReportGenerator.world s)
        ++ [Http.ToastError "Failed to generate report"]
  end.
Proof.
  intros Hfresh. split; [reflexivity|]. split; [reflexivity|]. split; [reflexivity|].
  cbv zeta. destruct r as [data|e]; cbn [ReportGenerator.generateReport fst
    ReportGenerator.generateReport_reply ReportGenerator.generating
    ReportGenerator.world ReportGenerator.hidden ReportGenerator.reportFormat].
  - destruct (save_blob_spec data
                ("claim_report_" +:+ id +:+ "." +:+ ReportGenerator.reportFormat s)
                (ReportGenerator.world s) Hfresh) as [H1 [H2 [H3 _]]].
    unfold Download.toast. cbn [Download.browser Download.saved Download.toasts].
    rewrite H1, H2, H3. repeat split.
  - repeat split.
Qed.

Lemma X25_witness :
  Download.saved
    (ReportGenerator.world
       (ReportGenerator.generateReport_reply "42" (Download.BlobOk Sample.f3)
          (fst (ReportGenerator.generateReport (Some "42")
                  (ReportGenerator.mkState false "pdf" true true 0
                     (Download.mkWorld (Browser.init Sample.tokens) [] [] []))))))
  = [("claim_report_42.pdf", Sample.f3)].
Proof.
  destruct (X25_generateReport "42" (Download.BlobOk Sample.f3)
              (ReportGenerator.mkState false "pdf" true true 0
                 (Download.mkWorld (Browser.init Sample.tokens) [] [] []))
              (fresh_next_init Sample.tokens)) as [_ [_ [_ [_ [_ [H _]]]]]].
  exact H.
Defined.
